(** * CvManager backend: project controller, manager assignments and the
      authorization pipeline

    A shallow embedding of [app/http/controllers/project.controller.js]
    and of the top-level router, over an explicit model of the document
    store.  Handlers are computations in a state-and-exception monad:
    the state is the store plus a trace of the effects performed (queries,
    committed writes, emitted domain events), an exception is the error the
    handler passes to [next(err)]. *)

From Stdlib Require Import List String Ascii NArith Bool Arith Lia.
Import ListNotations.
Open Scope string_scope.

(** ** Object identifiers *)

(** A document key is a 96-bit ObjectId; on the wire it is a string of 24
    hexadecimal digits. *)
Definition ObjectId := N.

Definition hex_digit (c : ascii) : option N :=
  let n := N_of_ascii c in
  if (48 <=? n)%N && (n <=? 57)%N then Some (n - 48)%N
  else if (97 <=? n)%N && (n <=? 102)%N then Some (n - 87)%N
  else if (65 <=? n)%N && (n <=? 70)%N then Some (n - 55)%N
  else None.

Fixpoint hex_value (acc : N) (s : string) : option N :=
  match s with
  | EmptyString => Some acc
  | String c s' =>
      match hex_digit c with
      | Some d => hex_value (16 * acc + d)%N s'
      | None => None
      end
  end.

(** Modelled from the spec: the cast the persistence collaborator applies to
    a key given as text (the driver is not part of the sources).  A well-formed
    resource key is exactly a text this cast accepts. *)
Definition cast_oid (s : string) : option ObjectId :=
  if (String.length s =? 24)%nat then hex_value 0 s else None.

(** Modelled from the spec: the identifier check of the request validators
    (the validators are not part of the sources; the route tests call an
    ill-formed key "not a mongo id"). *)
Definition isMongoId (s : string) : bool :=
  match cast_oid s with Some _ => true | None => false end.
Arguments cast_oid : simpl never.
Arguments isMongoId : simpl never.

(** ** Documents *)

Record Company := mkCompany
  { c_id : ObjectId; c_name : string; c_is_active : bool; c_deleted : bool }.

Record Project := mkProject
  { p_id : ObjectId; p_name : string; p_description : string;
    p_company_id : ObjectId; p_is_active : bool; p_created_by : ObjectId;
    p_deleted : bool }.

Record User := mkUser { u_id : ObjectId; u_deleted : bool }.

(** The polymorphic assignment: [m_entity] is the collection name of the
    entity ("projects", "companies"), [m_type] its strength ("owner", ...). *)
Record Manager := mkManager
  { m_id : ObjectId; m_entity : string; m_entity_id : ObjectId;
    m_user_id : ObjectId; m_type : string; m_created_by : ObjectId;
    m_deleted : bool }.

(** [app/models/position.model.js]: a position names the users managing it in
    an embedded list; [is_active] defaults to true, [level] to null. *)
Record PositionManager := mkPositionManager
  { pm_manager_id : ObjectId; pm_created_by : ObjectId }.

Record Position := mkPosition
  { pos_id : ObjectId; pos_company_id : ObjectId; pos_project_id : ObjectId;
    pos_manager_id : list PositionManager; pos_title : string;
    pos_level : option string; pos_is_active : bool;
    pos_created_by : ObjectId; pos_deleted : bool }.

Record Store := mkStore
  { companies : list Company; projects : list Project; users : list User;
    managers : list Manager; positions : list Position; next_id : ObjectId }.

(** ** Effects *)

Inductive EventKind :=
  CREATE | UPDATE | DELETE | SET_MANAGER | UNSET_MANAGER | ACTIVE | DEACTIVE.

Inductive Effect :=
| Lookup (collection : string)
| Commit (collection : string) (doc : ObjectId)
| Emit (kind : EventKind) (resource : ObjectId).

Record World := mkWorld { store : Store; trace : list Effect }.

Inductive HttpError :=
| NotFoundError (msg : string)
| BadRequestError (msg : string)
| AlreadyExists (msg : string)
| ForbiddenError (msg : string)
| UnauthenticatedError
| CastError.

Inductive Outcome (A : Type) :=
| Ok (a : A)
| Throw (e : HttpError).
Arguments Ok {A} a.
Arguments Throw {A} e.

(** ** The handler monad *)

Definition M (A : Type) : Type := World -> Outcome A * World.

Definition ret {A} (a : A) : M A := fun w => (Ok a, w).

Definition bind {A B} (c : M A) (k : A -> M B) : M B :=
  fun w => match c w with
           | (Ok a, w') => k a w'
           | (Throw e, w') => (Throw e, w')
           end.

Definition throw {A} (e : HttpError) : M A := fun w => (Throw e, w).

Definition gets {A} (f : Store -> A) : M A := fun w => (Ok (f (store w)), w).

Definition modify (f : Store -> Store) : M unit :=
  fun w => (Ok tt, mkWorld (f (store w)) (trace w)).

Definition perform (e : Effect) : M unit :=
  fun w => (Ok tt, mkWorld (store w) (trace w ++ [e])%list).

Declare Scope handler_scope.
Delimit Scope handler_scope with handler.
Notation "x <- c ;; k" := (bind c (fun x => k))
  (at level 61, c at next level, right associativity) : handler_scope.
Notation "c ;; k" := (bind c (fun _ => k))
  (at level 61, right associativity) : handler_scope.
Open Scope handler_scope.

(** [if (!x) throw e] on a nullable query result. *)
Definition orThrow {A} (x : option A) (e : HttpError) : M A :=
  match x with Some a => ret a | None => throw e end.

(** [if (c) throw e]. *)
Definition throwIf (c : bool) (e : HttpError) : M unit :=
  if c then throw e else ret tt.

(** ** Persistence primitives *)

(** Modelled from the spec: the persistence collaborator (the models of
    companies, projects, users and managers and their base plugin are not part
    of the sources).  Its primitives are "load by id, excluding soft-deleted",
    "find by composite key", create with a fresh key, save and soft delete. *)
Class Document (D : Type) :=
  { _id : D -> ObjectId;
    deleted : D -> bool;
    mark_deleted : D -> D }.

#[export] Instance Document_Company : Document Company :=
  { _id := c_id; deleted := c_deleted;
    mark_deleted c := mkCompany (c_id c) (c_name c) (c_is_active c) true }.

#[export] Instance Document_Project : Document Project :=
  { _id := p_id; deleted := p_deleted;
    mark_deleted p :=
      mkProject (p_id p) (p_name p) (p_description p) (p_company_id p)
                (p_is_active p) (p_created_by p) true }.

#[export] Instance Document_User : Document User :=
  { _id := u_id; deleted := u_deleted; mark_deleted u := mkUser (u_id u) true }.

#[export] Instance Document_Position : Document Position :=
  { _id := pos_id; deleted := pos_deleted;
    mark_deleted p :=
      mkPosition (pos_id p) (pos_company_id p) (pos_project_id p)
                 (pos_manager_id p) (pos_title p) (pos_level p)
                 (pos_is_active p) (pos_created_by p) true }.

#[export] Instance Document_Manager : Document Manager :=
  { _id := m_id; deleted := m_deleted;
    mark_deleted m :=
      mkManager (m_id m) (m_entity m) (m_entity_id m) (m_user_id m)
                (m_type m) (m_created_by m) true }.

(** The first document that is not soft-deleted and matches the query. *)
Definition select {D} `{Document D} (q : D -> bool) (docs : list D) : option D :=
  find (fun d => negb (deleted d) && q d) docs.
Arguments select : simpl never.

Definition by_id {D} `{Document D} (i : ObjectId) (d : D) : bool :=
  (_id d =? i)%N.

(** Replace the stored document that has the key of [d] by [d]. *)
Definition put_doc {D} `{Document D} (d : D) (docs : list D) : list D :=
  map (fun x => if by_id (_id d) x then d else x) docs.

(** Soft delete of the stored document with key [i]. *)
Definition soft_delete {D} `{Document D} (i : ObjectId) (docs : list D) : list D :=
  map (fun x => if by_id i x then mark_deleted x else x) docs.

Definition set_projects (f : list Project -> list Project) (s : Store) : Store :=
  mkStore (companies s) (f (projects s)) (users s) (managers s) (positions s)
          (next_id s).

Definition set_managers (f : list Manager -> list Manager) (s : Store) : Store :=
  mkStore (companies s) (projects s) (users s) (f (managers s)) (positions s)
          (next_id s).

Definition bump (s : Store) : Store :=
  mkStore (companies s) (projects s) (users s) (managers s) (positions s)
          (N.succ (next_id s)).

(** A query with a key given as text: the cast fails before the collection is
    searched. *)
Definition with_key {A} (s : string) (k : ObjectId -> M A) : M A :=
  match cast_oid s with
  | Some i => k i
  | None => throw CastError
  end.

Definition fresh_id : M ObjectId :=
  i <- gets next_id ;; modify bump ;; ret i.

(** Modelled from the spec: the queries of the company model. *)
Module CompanyModel.
Definition findOne_id (key : string) : M (option Company) :=
  perform (Lookup "companies") ;;
  with_key key (fun i => gets (fun s => select (by_id i) (companies s))).
Definition findById (i : ObjectId) : M (option Company) :=
  perform (Lookup "companies") ;;
  gets (fun s => select (by_id i) (companies s)).
End CompanyModel.

(** Modelled from the spec: the queries and writes of the project model. *)
Module ProjectModel.
Definition findById (key : string) : M (option Project) :=
  perform (Lookup "projects") ;;
  with_key key (fun i => gets (fun s => select (by_id i) (projects s))).
Definition findOne (name : string) (company_id : ObjectId) : M (option Project) :=
  perform (Lookup "projects") ;;
  gets (fun s => select (fun p => String.eqb (p_name p) name
                                    && (p_company_id p =? company_id)%N)
                          (projects s)).
Definition create (mk : ObjectId -> Project) : M Project :=
  i <- fresh_id ;;
  modify (set_projects (fun l => (l ++ [mk i])%list)) ;;
  perform (Commit "projects" i) ;;
  ret (mk i).
Definition save (p : Project) : M unit :=
  modify (set_projects (put_doc p)) ;;
  perform (Commit "projects" (p_id p)).
Definition delete (p : Project) : M unit :=
  modify (set_projects (soft_delete (p_id p))) ;;
  perform (Commit "projects" (p_id p)).
End ProjectModel.

(** Modelled from the spec: the query of the user model. *)
Module UserModel.
Definition findById (key : string) : M (option User) :=
  perform (Lookup "users") ;;
  with_key key (fun i => gets (fun s => select (by_id i) (users s))).
End UserModel.

Definition same_key (entity : string) (entity_id user_id : ObjectId) (m : Manager) : bool :=
  String.eqb (m_entity m) entity && (m_entity_id m =? entity_id)%N
  && (m_user_id m =? user_id)%N.

(** Modelled from the spec: the composite-key lookup, creation and soft
    delete of the manager model. *)
Module ManagerModel.
Definition findOne (entity : string) (entity_id user_id : ObjectId)
  : M (option Manager) :=
  perform (Lookup "managers") ;;
  gets (fun s => select (same_key entity entity_id user_id) (managers s)).
Definition create (mk : ObjectId -> Manager) : M Manager :=
  i <- fresh_id ;;
  modify (set_managers (fun l => (l ++ [mk i])%list)) ;;
  perform (Commit "managers" i) ;;
  ret (mk i).
Definition delete (m : Manager) : M unit :=
  modify (set_managers (soft_delete (m_id m))) ;;
  perform (Commit "managers" (m_id m)).
End ManagerModel.

(** The event bus: [EventEmitter.emit(kind, project)]. *)
Definition emit (k : EventKind) (p : Project) : M unit :=
  perform (Emit k (p_id p)).

(** ** The project controller *)

(** What a handler reads of the request: the [:id] path parameter, the body
    fields and the [user_id] set by the authentication middleware. *)
Record Req := mkReq
  { params_id : string; body_name : string; body_description : string;
    body_company_id : string; body_manager_id : string; user_id : ObjectId }.

(** [AppResponse.builder(res).status(..).message(..).data(..).send()]. *)
Inductive Payload :=
| OfProject (p : Project).

Record Response := mkResponse
  { status : nat; message : string; data : Payload }.

Definition isSome {A} (x : option A) : bool :=
  match x with Some _ => true | None => false end.

Definition set_active (b : bool) (p : Project) : Project :=
  mkProject (p_id p) (p_name p) (p_description p) (p_company_id p) b
            (p_created_by p) (p_deleted p).

Module ProjectController.
Section Schema.

(** The schema defaults of [managers.type] and [projects.is_active]: the two
    schemas are not part of the sources, the defaults stay parameters. *)
Variable default_type : string.
Variable default_is_active : bool.

(** GET /projects/{id} *)
Definition find (req : Req) : M Response :=
  found <- ProjectModel.findById (params_id req) ;;
  project <- orThrow found (NotFoundError "project.errors.project_notfound") ;;
  ret (mkResponse 200 "project.messages.project_found" (OfProject project)).

(** POST /projects *)
Definition create (req : Req) : M Response :=
  found <- CompanyModel.findOne_id (body_company_id req) ;;
  company <- orThrow found (NotFoundError "company.errors.company_notfound") ;;
  throwIf (negb (c_is_active company))
    (BadRequestError "project.errors.disabled_companey_create_project_error") ;;
  attached <- ProjectModel.findOne (body_name req) (c_id company) ;;
  throwIf (isSome attached)
    (AlreadyExists "project.errors.project_already_attached_company") ;;
  project <- ProjectModel.create (fun i =>
               mkProject i (body_name req) (body_description req)
                         (c_id company) default_is_active (user_id req) false) ;;
  emit CREATE project ;;
  ret (mkResponse 201 "project.messages.project_successfully_created"
                  (OfProject project)).

(** DELETE /projects/{id} *)
Definition delete (req : Req) : M Response :=
  found <- ProjectModel.findById (params_id req) ;;
  project <- orThrow found (NotFoundError "project.errors.project_notfound") ;;
  ProjectModel.delete project ;;
  emit DELETE project ;;
  ret (mkResponse 200 "project.messages.project_successfully_deleted"
                  (OfProject (mark_deleted project))).

(** PATCH /projects/{id}/manager *)
Definition manager (req : Req) : M Response :=
  found <- ProjectModel.findById (params_id req) ;;
  project <- orThrow found (NotFoundError "project.errors.project_notfound") ;;
  known <- UserModel.findById (body_manager_id req) ;;
  user <- orThrow known (NotFoundError "user.errors.user_notfound") ;;
  assigned <- ManagerModel.findOne "projects" (p_id project) (u_id user) ;;
  throwIf (isSome assigned)
    (BadRequestError "project.errors.the_user_is_currently_an_manager_for_project") ;;
  ManagerModel.create (fun i =>
    mkManager i "projects" (p_id project) (u_id user) default_type
              (user_id req) false) ;;
  emit SET_MANAGER project ;;
  ret (mkResponse 201 "project.messages.project_manager_successfully_updated"
                  (OfProject project)).

(** DELETE /projects/{id}/manager *)
Definition deleteManager (req : Req) : M Response :=
  found <- ProjectModel.findById (params_id req) ;;
  project <- orThrow found (NotFoundError "project.errors.project_notfound") ;;
  known <- UserModel.findById (body_manager_id req) ;;
  user <- orThrow known (NotFoundError "user.errors.user_notfound") ;;
  assigned <- ManagerModel.findOne "projects" (p_id project) (u_id user) ;;
  m <- orThrow assigned
         (BadRequestError "project.errors.the_user_is_not_an_manager_for_project") ;;
  throwIf (String.eqb (m_type m) "owner")
    (BadRequestError "project.errors.the_owner_manager_cannot_be_deleted") ;;
  emit UNSET_MANAGER project ;;
  ManagerModel.delete m ;;
  ret (mkResponse 200 "project.messages.project_manager_successfully_deleted"
                  (OfProject project)).

(** PATCH /projects/{id}/active *)
Definition active (req : Req) : M Response :=
  found <- ProjectModel.findById (params_id req) ;;
  project <- orThrow found (NotFoundError "project.errors.project_not_found") ;;
  throwIf (Bool.eqb (p_is_active project) true)
    (BadRequestError "project.errors.project_activated_alredy") ;;
  let project := set_active true project in
  ProjectModel.save project ;;
  emit ACTIVE project ;;
  ret (mkResponse 200 "project.messages.project_successfuly_activated"
                  (OfProject project)).

(** PATCH /projects/{id}/deactive *)
Definition deActive (req : Req) : M Response :=
  found <- ProjectModel.findById (params_id req) ;;
  project <- orThrow found (NotFoundError "project.errors.project_not_found") ;;
  throwIf (Bool.eqb (p_is_active project) false)
    (BadRequestError "project.errors.project_deactivated_alredy") ;;
  let project := set_active false project in
  ProjectModel.save project ;;
  emit DEACTIVE project ;;
  ret (mkResponse 200 "project.messages.project_successfuly_deactivated"
                  (OfProject project)).

End Schema.
End ProjectController.

(** ** Roles and permissions *)

Inductive ResourceType :=
  RCompany | RProject | RPosition | RResume | RInterview | RManager
| RPermission | RRole.

Inductive Action := ACreate | ARead | AUpdate | ADelete | AManage.

Definition Permission : Type := ResourceType * Action.

Record Role := mkRole
  { roleId : ObjectId; role_name : string; permissions : list Permission }.

Record Principal := mkPrincipal { userId : ObjectId; principal_role : Role }.

Definition ResourceType_eq_dec (a b : ResourceType) : {a = b} + {a <> b}.
Proof. decide equality. Defined.

Definition Action_eq_dec (a b : Action) : {a = b} + {a <> b}.
Proof. decide equality. Defined.

Definition Permission_eq_dec (a b : Permission) : {a = b} + {a <> b}.
Proof. decide equality; [apply Action_eq_dec | apply ResourceType_eq_dec]. Defined.

Definition grants (r : Role) (p : Permission) : bool :=
  if in_dec Permission_eq_dec p (permissions r) then true else false.

(** Modelled from the spec: the permission catalog query of the gate (the
    rbac middleware is not part of the sources).  A role has a permission when
    it lists the pair, or lists the [manage] wildcard of the resource type. *)
Definition hasPermission (r : Role) (rt : ResourceType) (a : Action) : bool :=
  grants r (rt, a) || grants r (rt, AManage).
Arguments grants : simpl never.
Arguments hasPermission : simpl never.

(** ** Requests and the router *)

Inductive Strength := owner | owner_or_manager.

Inductive Requirement := global | scoped (s : Strength).

(** A request as the pipeline sees it: the path below the API root, the
    principal the authentication collaborator resolved the token to (if any),
    and what its route declares. *)
Record Request := mkRequest
  { url : list string;
    credential : option Principal;
    resource : ResourceType;
    action : Action;
    required : Requirement }.

Inductive Segment := lit (s : string) | param (name : string).

Inductive Stage :=
| verifyToken | canAccess | companyAccess | projectAccess
| subRouter (name : string).

Record Mount := mkMount { mount_path : list Segment; mount_stages : list Stage }.

(** The mount table of the top-level router, in registration order. *)
Definition router : list Mount :=
  [ mkMount [lit "auth"] [subRouter "authRouter"];
    mkMount [lit "users"] [verifyToken; subRouter "userRouter"];
    mkMount [lit "companies"; param "id"]
            [verifyToken; canAccess; companyAccess; subRouter "companyIdRouter"];
    mkMount [lit "companies"]
            [verifyToken; canAccess; companyAccess; subRouter "companyRouter"];
    mkMount [lit "projects"; param "id"]
            [verifyToken; canAccess; projectAccess; subRouter "projectIdRouter"];
    mkMount [lit "projects"]
            [verifyToken; canAccess; projectAccess; subRouter "projectRouter"];
    mkMount [lit "permissions"; param "id"]
            [verifyToken; canAccess; subRouter "permissionIdRouter"];
    mkMount [lit "permissions"] [verifyToken; canAccess; subRouter "permissionRouter"];
    mkMount [lit "roles"; param "id"]
            [verifyToken; canAccess; subRouter "roleIdRouter"];
    mkMount [lit "roles"] [verifyToken; canAccess; subRouter "roleRouter"];
    mkMount [lit "resumes"] [verifyToken; subRouter "resumeRouter"];
    mkMount [lit "constant"] [verifyToken; subRouter "constantRouter"];
    mkMount [lit "provinces"] [verifyToken; subRouter "provinceRouter"];
    mkMount [lit "cities"] [verifyToken; subRouter "cityRouter"];
    mkMount [lit "positions"] [verifyToken; subRouter "positionRouter"] ].

(** Letters in lower case: the router is created without [caseSensitive],
    so its mount paths match whatever the case of the request path. *)
Definition lower_ascii (c : ascii) : ascii :=
  let n := N_of_ascii c in
  if (65 <=? n)%N && (n <=? 90)%N then ascii_of_N (n + 32) else c.

Fixpoint lower (s : string) : string :=
  match s with
  | EmptyString => EmptyString
  | String c s' => String (lower_ascii c) (lower s')
  end.

(** [router.use(path, ...)] matches a path prefix, segment by segment and
    without regard to case; a [:id] segment binds [req.params.id] as it is
    written.  The result is the bound parameter and the rest of the path,
    which the sub-router sees. *)
Fixpoint match_path (pat : list Segment) (u : list string) (id : option string)
  : option (option string * list string) :=
  match pat, u with
  | [], rest => Some (id, rest)
  | lit s :: pat', x :: u' =>
      if String.eqb (lower s) (lower x) then match_path pat' u' id else None
  | param _ :: pat', x :: u' => match_path pat' u' (Some x)
  | _ :: _, [] => None
  end.

(** ** Scope loader and ownership evaluator *)

Record Resource := mkResource
  { r_type : ResourceType; r_id : ObjectId; r_parentId : option ObjectId }.

(** Modelled from the spec: the entity tag of the assignments of a resource
    type; it is the collection name, as in the assignments the project
    controller writes. *)
Definition entity_name (rt : ResourceType) : string :=
  match rt with
  | RCompany => "companies"
  | RProject => "projects"
  | _ => ""
  end.

(** The scope of a project: the project, then its company. *)
Definition project_chain (p : Project) (c : Company) : list Resource :=
  [mkResource RProject (p_id p) (Some (c_id c)); mkResource RCompany (c_id c) None].

Definition company_chain (c : Company) : list Resource :=
  [mkResource RCompany (c_id c) None].

(** Modelled from the spec: the resource scope loader (the companyAccess and
    projectAccess middlewares are not part of the sources).  It validates the
    key, loads the resource, and for a project also its parent company; the
    chain runs from the most specific resource to the least specific. *)
Definition load_scope (rt : ResourceType) (key : string) : M (list Resource) :=
  throwIf (negb (isMongoId key)) (BadRequestError "invalid_identifier") ;;
  match rt with
  | RProject =>
      found <- ProjectModel.findById key ;;
      p <- orThrow found (NotFoundError "resource_not_found") ;;
      parent <- CompanyModel.findById (p_company_id p) ;;
      c <- orThrow parent (NotFoundError "parent_resource_not_found") ;;
      ret (project_chain p c)
  | RCompany =>
      found <- CompanyModel.findOne_id key ;;
      c <- orThrow found (NotFoundError "resource_not_found") ;;
      ret (company_chain c)
  | _ => ret []
  end.

(** Modelled from the spec: the walk of the evaluator along the chain.  The
    result is the first level, counted from the target, at which the user holds
    an assignment. *)
Fixpoint first_assignment (uid : ObjectId) (chain : list Resource) (level : nat)
  : M (option (nat * Manager)) :=
  match chain with
  | [] => ret None
  | r :: up =>
      a <- ManagerModel.findOne (entity_name (r_type r)) (r_id r) uid ;;
      match a with
      | Some m => ret (Some (level, m))
      | None => first_assignment uid up (S level)
      end
  end.

(** Modelled from the spec: whether an assignment of the given type, found
    [level] steps above the target, meets the required strength.  On the target
    itself any assignment meets [owner_or_manager] and an owner meets [owner];
    above the target only an owner counts, and only for [owner_or_manager]. *)
Definition satisfies (level : nat) (type : string) (s : Strength) : bool :=
  match s, level with
  | owner_or_manager, O => true
  | owner_or_manager, S _ => String.eqb type "owner"
  | owner, O => String.eqb type "owner"
  | owner, S _ => false
  end.

(** Modelled from the spec: the [manage] wildcard of the principal's role for
    the type of the target, the head of the chain. *)
Definition target_type (chain : list Resource) : option ResourceType :=
  match chain with r :: _ => Some (r_type r) | [] => None end.

Definition has_wildcard (p : Principal) (chain : list Resource) : bool :=
  match target_type chain with
  | Some rt => grants (principal_role p) (rt, AManage)
  | None => false
  end.

(** Modelled from the spec: the ownership evaluator (same middlewares).  The
    first level with an assignment decides; without any assignment only the
    [manage] wildcard of the principal's role lets the request pass. *)
Definition evaluate (p : Principal) (chain : list Resource) (s : Strength) : M unit :=
  a <- first_assignment (userId p) chain 0 ;;
  match a with
  | None => throwIf (negb (has_wildcard p chain)) (ForbiddenError "not_a_manager")
  | Some (level, m) =>
      throwIf (negb (satisfies level (m_type m) s))
              (ForbiddenError "insufficient_assignment_strength")
  end.

(** ** Pipeline stages *)

(** Modelled from the spec: the role/permission gate. *)
Definition gate (req : Request) : M unit :=
  match credential req with
  | None => throw UnauthenticatedError
  | Some p =>
      throwIf (negb (hasPermission (principal_role p) (resource req) (action req)))
              (ForbiddenError "role_permission_denied")
  end.

(** Modelled from the spec: the principal resolver at the boundary with the
    authentication collaborator. *)
Definition resolve (req : Request) : M Principal :=
  orThrow (credential req) UnauthenticatedError.

(** Modelled from the spec: scope loader followed by the evaluator, for the
    requests that carry a resource key. *)
Definition access (rt : ResourceType) (req : Request) (id : option string) : M unit :=
  match id with
  | None => ret tt
  | Some key =>
      p <- resolve req ;;
      chain <- load_scope rt key ;;
      match required req with
      | global => ret tt
      | scoped s => evaluate p chain s
      end
  end.

Section Dispatch.

(** The sub-routers behind the mounts: given the bound [:id], the rest of the
    path and the request, the handler of the matching route, if any. *)
Variable subrouter : string -> option string -> list string -> Request
                     -> option (M Response).

(** A stage either ends the request with a response or calls [next()]. *)
Definition run_stage (st : Stage) (req : Request) (id : option string)
           (rest : list string) : M (option Response) :=
  match st with
  | verifyToken => resolve req ;; ret None
  | canAccess => gate req ;; ret None
  | companyAccess => access RCompany req id ;; ret None
  | projectAccess => access RProject req id ;; ret None
  | subRouter name =>
      match subrouter name id rest req with
      | Some handler => r <- handler ;; ret (Some r)
      | None => ret None
      end
  end.

Fixpoint run_stages (stages : list Stage) (req : Request) (id : option string)
         (rest : list string) : M (option Response) :=
  match stages with
  | [] => ret None
  | st :: more =>
      r <- run_stage st req id rest ;;
      match r with
      | Some resp => ret (Some resp)
      | None => run_stages more req id rest
      end
  end.

(** The mounts are tried in order; an error ends the request. *)
Fixpoint dispatch (mounts : list Mount) (req : Request) : M (option Response) :=
  match mounts with
  | [] => ret None
  | m :: others =>
      match match_path (mount_path m) (url req) None with
      | Some (id, rest) =>
          r <- run_stages (mount_stages m) req id rest ;;
          match r with
          | Some resp => ret (Some resp)
          | None => dispatch others req
          end
      | None => dispatch others req
      end
  end.

End Dispatch.

(** ** Routes of the sub-routers *)

(** Modelled from the spec: the identifier check a route runs ahead of its
    handler (the validators are not part of the sources). *)
Definition validate_id (req : Req) : M unit :=
  throwIf (negb (isMongoId (params_id req))) (BadRequestError "invalid_identifier").

(** One route of a sub-router, as [companyIdRouter] registers them:
    [.get('', Validation.find(), Controller.find)]. *)
Definition route {A} (validation : Req -> M unit) (handler : Req -> M A)
           (req : Req) : M A :=
  validation req ;; handler req.

(** A sub-router without routes: every request falls through it. *)
Definition unrouted (name : string) (id : option string) (rest : list string)
           (req : Request) : option (M Response) := None.


(** ** Store invariants and observations *)

Definition live {D} `{Document D} (d : D) : bool := negb (deleted d).

Definition assignment_key (m : Manager) : string * ObjectId * ObjectId :=
  (m_entity m, m_entity_id m, m_user_id m).

(** Document keys are unique and below the key generator; no two live
    assignments share (entity, entity_id, user_id). *)
Record wf_store (s : Store) : Prop := mk_wf_store
  { wf_project_ids : NoDup (map p_id (projects s));
    wf_manager_ids : NoDup (map m_id (managers s));
    wf_project_fresh : Forall (fun p => (p_id p < next_id s)%N) (projects s);
    wf_manager_fresh : Forall (fun m => (m_id m < next_id s)%N) (managers s);
    wf_assignment_keys : NoDup (map assignment_key (filter live (managers s))) }.

Definition is_owner_of (entity : string) (entity_id : ObjectId) (m : Manager) : bool :=
  live m && String.eqb (m_entity m) entity && (m_entity_id m =? entity_id)%N
  && String.eqb (m_type m) "owner".

Definition owner_count (entity : string) (entity_id : ObjectId) (s : Store) : nat :=
  List.length (filter (is_owner_of entity entity_id) (managers s)).

(** The assignment is the only owner assignment of its entity. *)
Definition sole_owner (m : Manager) (s : Store) : bool :=
  String.eqb (m_type m) "owner"
  && (owner_count (m_entity m) (m_entity_id m) s =? 1)%nat.

(** Every event of the trace is emitted after some write was committed. *)
Fixpoint emitted_after_commit (committed : bool) (t : list Effect) : bool :=
  match t with
  | [] => true
  | Commit _ _ :: t' => emitted_after_commit true t'
  | Emit _ _ :: t' => committed && emitted_after_commit committed t'
  | Lookup _ :: t' => emitted_after_commit committed t'
  end.

Definition is_lookup (e : Effect) : bool :=
  match e with Lookup _ => true | _ => false end.

(** ** A sample store *)

Definition key_company := "0000000000000000000000c1".
Definition key_idle := "0000000000000000000000c2".
Definition key_project := "0000000000000000000000a1".
Definition key_gemini := "0000000000000000000000A2".
Definition key_alice := "0000000000000000000000e1".
Definition key_bob := "0000000000000000000000e2".
Definition key_carol := "0000000000000000000000e3".
Definition key_dave := "0000000000000000000000e4".
Definition key_unknown := "0000000000000000000000ff".

Local Open Scope N_scope.

Definition id_company : ObjectId := 193.
Definition id_idle : ObjectId := 194.
Definition id_project : ObjectId := 161.
Definition id_gemini : ObjectId := 162.
Definition id_unknown : ObjectId := 255.
Definition id_alice : ObjectId := 225.
Definition id_bob : ObjectId := 226.
Definition id_carol : ObjectId := 227.
Definition id_dave : ObjectId := 228.

Definition acme := mkCompany id_company "Acme" true false.
Definition idle := mkCompany id_idle "Idle" false false.
Definition apollo :=
  mkProject id_project "Apollo" "launcher" id_company true id_alice false.
Definition gemini :=
  mkProject id_gemini "Gemini" "capsule" id_company false id_alice false.

(** Alice and Bob own the project, Carol manages it, Dave has no assignment;
    Alice also owns the company. *)
Definition sample_store : Store :=
  mkStore [acme; idle] [apollo; gemini]
          [mkUser id_alice false; mkUser id_bob false; mkUser id_carol false;
           mkUser id_dave false]
          [mkManager 1 "projects" id_project id_alice "owner" id_alice false;
           mkManager 2 "projects" id_project id_bob "owner" id_alice false;
           mkManager 3 "projects" id_project id_carol "manager" id_alice false;
           mkManager 4 "companies" id_company id_alice "owner" id_alice false]
          [] 1000.

Local Close Scope N_scope.

Definition sample_world : World := mkWorld sample_store [].

Definition manager_request (user : string) : Req :=
  mkReq key_project "" "" "" user id_alice.

Definition project_request (key : string) : Req :=
  mkReq key "" "" "" "" id_alice.

Definition create_request (name company : string) : Req :=
  mkReq "" name "" company "" id_alice.

Definition viewer : Role := mkRole 7%N "viewer" [(RProject, ARead)].


Definition scoped_request (path : list string) (user : ObjectId)
           (rt : ResourceType) (a : Action) (s : Strength) : Request :=
  mkRequest path (Some (mkPrincipal user viewer)) rt a (scoped s).






(** ** The other handlers of the project controller *)

(** Modelled from the spec: [Model.find(query)], the documents that are not
    soft-deleted and match the query, in store order. *)
Definition select_all {D} `{Document D} (q : D -> bool) (docs : list D) : list D :=
  filter (fun d => negb (deleted d) && q d) docs.
Arguments select_all : simpl never.

Definition of_entity (entity : string) (entity_id : ObjectId) (m : Manager) : bool :=
  String.eqb (m_entity m) entity && (m_entity_id m =? entity_id)%N.

Definition of_project (project_id : ObjectId) (p : Position) : bool :=
  (pos_project_id p =? project_id)%N.

(** [{ '_id': { $ne: id }, 'name': name, 'company_id': company_id }] *)
Definition namesake (id : ObjectId) (name : string) (company_id : ObjectId)
           (p : Project) : bool :=
  negb (p_id p =? id)%N && String.eqb (p_name p) name
  && (p_company_id p =? company_id)%N.

(** The body of PATCH /projects/{id}: each field may be left out. *)
Record UpdateBody := mkUpdateBody
  { ub_name : option string; ub_description : option string;
    ub_company_id : option string; ub_is_active : option bool }.

Record UpdateReq := mkUpdateReq { ur_id : string; ur_body : UpdateBody }.

Definition or_old {A} (new : option A) (old : A) : A :=
  match new with Some a => a | None => old end.

(** The fields the body carries replace the stored ones. *)
Definition patch (b : UpdateBody) (company_id : option ObjectId) (p : Project)
  : Project :=
  mkProject (p_id p) (or_old (ub_name b) (p_name p))
            (or_old (ub_description b) (p_description p))
            (or_old company_id (p_company_id p))
            (or_old (ub_is_active b) (p_is_active p))
            (p_created_by p) (p_deleted p).

(** The cast of an optional key of the body. *)
Definition cast_field (key : option string) : M (option ObjectId) :=
  match key with
  | None => ret None
  | Some s => with_key s (fun i => ret (Some i))
  end.

(** Modelled from the spec: the list query of the manager model. *)
Module ManagerQuery.
Definition find (entity : string) (entity_id : ObjectId) : M (list Manager) :=
  perform (Lookup "managers") ;;
  gets (fun s => select_all (of_entity entity entity_id) (managers s)).
End ManagerQuery.

(** Modelled from the spec: the list query of the position model. *)
Module PositionQuery.
Definition find (project_id : ObjectId) : M (list Position) :=
  perform (Lookup "positions") ;;
  gets (fun s => select_all (of_project project_id) (positions s)).
End PositionQuery.

(** Modelled from the spec: the namesake query and the update by key of the
    project model.  The update casts the body, finds the document that is not
    soft-deleted, stores the patched document and returns it ([new: true]), or
    returns null when there is none. *)
Module ProjectQuery.
Definition findOne (id : ObjectId) (name : string) (company_id : ObjectId)
  : M (option Project) :=
  perform (Lookup "projects") ;;
  gets (fun s => select (namesake id name company_id) (projects s)).
Definition findByIdAndUpdate (key : string) (b : UpdateBody) : M (option Project) :=
  perform (Lookup "projects") ;;
  with_key key (fun i =>
    company_id <- cast_field (ub_company_id b) ;;
    found <- gets (fun s => select (by_id i) (projects s)) ;;
    match found with
    | None => ret None
    | Some p =>
        modify (set_projects (put_doc (patch b company_id p))) ;;
        perform (Commit "projects" (p_id p)) ;;
        ret (Some (patch b company_id p))
    end).
End ProjectQuery.

(** The answer of a handler that lists documents. *)
Record Listing (A : Type) := mkListing
  { ls_status : nat; ls_message : string; ls_docs : list A }.
Arguments mkListing {A} _ _ _.
Arguments ls_status {A} _.
Arguments ls_message {A} _.
Arguments ls_docs {A} _.

Module ProjectHandlers.

(** PATCH /projects/{id}.  The namesake query already leaves the project
    itself out, so the handler's further test that the namesake's key differs
    from the project's adds nothing.  The answer is [None] when the update by
    key returns null; the lookup just before rules that out
    ([update_answers_a_document] below), so what the handler does with a null
    document is never seen. *)
Definition update (req : UpdateReq) : M (option Response) :=
  found <- ProjectModel.findById (ur_id req) ;;
  project <- orThrow found (NotFoundError "project.errors.project_notfound") ;;
  match ub_name (ur_body req) with
  | Some name =>
      duplicateProject <- ProjectQuery.findOne (p_id project) name
                                               (p_company_id project) ;;
      throwIf (isSome duplicateProject)
        (AlreadyExists "project.errors.project_already_attached_company")
  | None => ret tt
  end ;;
  updated <- ProjectQuery.findByIdAndUpdate (ur_id req) (ur_body req) ;;
  match updated with
  | Some project =>
      emit UPDATE project ;;
      ret (Some (mkResponse 200 "project.messages.project_successfully_updated"
                            (OfProject project)))
  | None => ret None
  end.

(** GET /projects/{id}/positions *)
Definition getPositions (req : Req) : M (Listing Position) :=
  found <- ProjectModel.findById (params_id req) ;;
  project <- orThrow found (NotFoundError "project.errors.project_not_found") ;;
  positions <- PositionQuery.find (p_id project) ;;
  ret (mkListing 200 "project.messages.project_positions_found" positions).

(** GET /projects/{id}/managers *)
Definition getManagers (req : Req) : M (Listing Manager) :=
  found <- ProjectModel.findById (params_id req) ;;
  project <- orThrow found (NotFoundError "project.errors.project_not_found") ;;
  managers <- ManagerQuery.find "projects" (p_id project) ;;
  ret (mkListing 200 "project.messages.project_managers_found" managers).

End ProjectHandlers.

(** The optional key of a body and the identifier it is cast to. *)
Definition casts (key : option string) (id : option ObjectId) : Prop :=
  match key, id with
  | None, None => True
  | Some s, Some i => cast_oid s = Some i
  | _, _ => False
  end.

Definition empty_body : UpdateBody := mkUpdateBody None None None None.

(** No two live projects of one company share a name. *)
Definition project_name (p : Project) : string * ObjectId :=
  (p_name p, p_company_id p).

Definition unique_names (s : Store) : Prop :=
  NoDup (map project_name (filter live (projects s))).

(** The effects a run added to the trace are lookups, then one commit, then
    one event about the project. *)
Definition commit_then_event (t : list Effect) (k : EventKind)
           (project_id : ObjectId) : Prop :=
  exists lookups collection doc,
    t = (lookups ++ [Commit collection doc; Emit k project_id])%list
    /\ forallb is_lookup lookups = true.

(** The document POST /projects stores. *)
Definition created_project (default_is_active : bool) (req : Req)
           (company_id id : ObjectId) : Project :=
  mkProject id (body_name req) (body_description req) company_id
            default_is_active (user_id req) false.


(** A successful run ends with one commit followed by one event of the kind. *)
Definition announces {A} (c : M A) (k : EventKind) : Prop :=
  forall w a w',
    c w = (Ok a, w') ->
    exists t project_id,
      trace w' = (trace w ++ t)%list /\ commit_then_event t k project_id.

(** Whatever the outcome, the run keeps a property of the store. *)
Definition keeps {A} (P : Store -> Prop) (c : M A) : Prop :=
  forall w, P (store w) -> P (store (snd (c w))).

Definition key_fresh := "0000000000000000000003e8".

Definition rename_request (key name : string) : UpdateReq :=
  mkUpdateReq key (mkUpdateBody (Some name) None None None).

Definition overhaul_request (key : string) : UpdateReq :=
  mkUpdateReq key (mkUpdateBody (Some "Saturn") (Some "probe") (Some key_idle)
                                (Some false)).

Definition describe_request (key text : string) : UpdateReq :=
  mkUpdateReq key (mkUpdateBody None (Some text) None None).

Definition touch_request (key : string) : UpdateReq :=
  mkUpdateReq key empty_body.

Definition anonymous_request : Request :=
  mkRequest ["projects"; key_project] None RProject ARead global.

Definition login_request : Request :=
  mkRequest ["auth"; "login"] None RRole ARead global.

(** The sample store with three positions: two of Apollo, one of them
    deleted, and one of Gemini. *)
Definition analyst : Position :=
  mkPosition 301%N id_company id_project [mkPositionManager id_carol id_alice]
             "Analyst" None true id_alice false.
Definition retired : Position :=
  mkPosition 302%N id_company id_project [] "Courier" (Some "junior") true
             id_alice true.
Definition pilot : Position :=
  mkPosition 303%N id_company id_gemini [] "Pilot" None true id_alice false.

Definition staffed_world : World :=
  mkWorld (mkStore (companies sample_store) (projects sample_store)
                   (users sample_store) (managers sample_store)
                   [analyst; retired; pilot] (next_id sample_store)) [].

Definition mount_names : list string :=
  ["users"; "companies"; "projects"; "permissions"; "roles"; "resumes";
   "constant"; "provinces"; "cities"; "positions"].

(** * Properties *)

(** ** Queries *)

Section Select.
Context {D : Type} `{Document D}.

Lemma select_sound (q : D -> bool) (docs : list D) (d : D) :
  select q docs = Some d -> In d docs /\ deleted d = false /\ q d = true.
Proof.
  unfold select. intros Hf. apply find_some in Hf. destruct Hf as [Hin Hq].
  apply andb_prop in Hq. destruct Hq as [Hl Hq].
  apply negb_true_iff in Hl. auto.
Qed.

Lemma select_by_id (i : ObjectId) (docs : list D) (d : D) :
  select (by_id i) docs = Some d -> _id d = i.
Proof.
  intros Hs. apply select_sound in Hs. destruct Hs as (_ & _ & Hq).
  unfold by_id in Hq. now apply N.eqb_eq.
Qed.

Lemma select_none (q : D -> bool) (docs : list D) :
  (forall d, In d docs -> q d = true -> deleted d = true) ->
  select q docs = None.
Proof.
  intros Hall. unfold select.
  destruct (find _ docs) as [d|] eqn:Hf; [|reflexivity].
  apply find_some in Hf. destruct Hf as [Hin Hq].
  apply andb_prop in Hq. destruct Hq as [Hl Hq].
  rewrite (Hall d Hin Hq) in Hl. discriminate.
Qed.

Lemma select_snoc (q : D -> bool) (docs : list D) (d : D) :
  select q docs = None ->
  select q (docs ++ [d]) = if negb (deleted d) && q d then Some d else None.
Proof.
  unfold select. induction docs as [|x docs IH]; simpl; intros Hn.
  - reflexivity.
  - destruct (negb (deleted x) && q x); [discriminate | auto].
Qed.

End Select.

Lemma NoDup_map_inj {A B} (f : A -> B) (l : list A) (x y : A) :
  NoDup (map f l) -> In x l -> In y l -> f x = f y -> x = y.
Proof.
  induction l as [|a l IH]; simpl; intros Hnd Hx Hy Hxy; [contradiction|].
  inversion Hnd as [|b l' Hnotin Hnd']; subst.
  destruct Hx as [Hx|Hx], Hy as [Hy|Hy]; subst; auto.
  - exfalso. apply Hnotin. rewrite Hxy. now apply in_map.
  - exfalso. apply Hnotin. rewrite <- Hxy. now apply in_map.
Qed.

(** ** Running handlers *)

Ltac unfold_handlers :=
  unfold route, access, load_scope, evaluate, gate, resolve, validate_id,
    ProjectController.find, ProjectController.create,
    ProjectController.delete, ProjectController.manager,
    ProjectController.deleteManager, ProjectController.active,
    ProjectController.deActive,
    ProjectModel.findById, ProjectModel.findOne, ProjectModel.create,
    ProjectModel.save, ProjectModel.delete, CompanyModel.findOne_id,
    CompanyModel.findById, UserModel.findById,
    ManagerModel.findOne, ManagerModel.create, ManagerModel.delete,
    emit, fresh_id, with_key, orThrow, throwIf, isSome,
    bind, ret, throw, gets, modify, perform.

Ltac unfold_handlers_in H :=
  unfold route, access, load_scope, evaluate, gate, resolve, validate_id,
    ProjectController.find, ProjectController.create,
    ProjectController.delete, ProjectController.manager,
    ProjectController.deleteManager, ProjectController.active,
    ProjectController.deActive,
    ProjectModel.findById, ProjectModel.findOne, ProjectModel.create,
    ProjectModel.save, ProjectModel.delete, CompanyModel.findOne_id,
    CompanyModel.findById, UserModel.findById,
    ManagerModel.findOne, ManagerModel.create, ManagerModel.delete,
    emit, fresh_id, with_key, orThrow, throwIf, isSome,
    bind, ret, throw, gets, modify, perform in H.

(** Replace the queries and tests whose results are known. *)
Ltac rewrite_known :=
  repeat match goal with
         | H : cast_oid _ = _ |- _ => rewrite H
         | H : select _ _ = _ |- _ => rewrite H
         | H : isMongoId _ = _ |- _ => rewrite H
         | H : c_is_active _ = _ |- _ => rewrite H
         | H : p_is_active _ = _ |- _ => rewrite H
         | H : String.eqb _ _ = _ |- _ => rewrite H
         end.

Ltac run := unfold_handlers; repeat (progress (cbn; rewrite_known)).

(** ** Creating a project *)

(** C9. Creating a project fails with NotFoundError when the referenced
    company does not exist, with BadRequestError when the company is not
    active, and with AlreadyExists when a project of that name is attached to
    the company already; in the three cases the store stays as it was, so no
    project is created. *)
Theorem create_rejections (default_is_active : bool) (req : Req) (w : World)
    (cid : ObjectId) :
  cast_oid (body_company_id req) = Some cid ->
  (select (by_id cid) (companies (store w)) = None ->
   fst (ProjectController.create default_is_active req w)
     = Throw (NotFoundError "company.errors.company_notfound")
   /\ store (snd (ProjectController.create default_is_active req w)) = store w)
  /\ (forall company,
      select (by_id cid) (companies (store w)) = Some company ->
      c_is_active company = false ->
      fst (ProjectController.create default_is_active req w)
        = Throw (BadRequestError
                   "project.errors.disabled_companey_create_project_error")
      /\ store (snd (ProjectController.create default_is_active req w)) = store w)
  /\ (forall company attached,
      select (by_id cid) (companies (store w)) = Some company ->
      c_is_active company = true ->
      select (fun p => String.eqb (p_name p) (body_name req)
                       && (p_company_id p =? c_id company)%N)
             (projects (store w)) = Some attached ->
      fst (ProjectController.create default_is_active req w)
        = Throw (AlreadyExists "project.errors.project_already_attached_company")
      /\ store (snd (ProjectController.create default_is_active req w)) = store w).
Proof.
  intros Hcast. repeat split; intros; run; reflexivity.
Qed.

(** ** Activating and deactivating a project *)

Lemma put_doc_set_active (b : bool) (pid : ObjectId) (project : Project)
    (docs : list Project) :
  NoDup (map p_id docs) ->
  select (by_id pid) docs = Some project ->
  put_doc (set_active b project) docs
  = map (fun q => if by_id pid q then set_active b q else q) docs.
Proof.
  intros Hnd Hsel. unfold put_doc. apply map_ext_in. intros q Hq.
  pose proof (select_by_id _ _ _ Hsel) as Hid.
  apply select_sound in Hsel. destruct Hsel as (Hin & _ & _).
  cbn in Hid |- *. rewrite Hid.
  destruct (by_id pid q) eqn:Hq'; [|reflexivity].
  unfold by_id in Hq'. apply N.eqb_eq in Hq'. cbn in Hq'.
  assert (q = project) as ->; [|reflexivity].
  apply (NoDup_map_inj p_id docs); auto. congruence.
Qed.

(** C10. Activating an active project and deactivating an inactive one fail
    with BadRequestError and leave the store as it was.  A successful
    activation answers 200 with the project as it was found except for
    [is_active], now true; in the store the addressed project has [is_active]
    true and every other field as before, every other project and every
    other collection is as before.  A successful deactivation does the same
    with false. *)
Theorem activation_frame (req : Req) (w : World) (pid : ObjectId)
    (project : Project) :
  cast_oid (params_id req) = Some pid ->
  select (by_id pid) (projects (store w)) = Some project ->
  NoDup (map p_id (projects (store w))) ->
  (p_is_active project = true ->
   fst (ProjectController.active req w)
     = Throw (BadRequestError "project.errors.project_activated_alredy")
   /\ store (snd (ProjectController.active req w)) = store w)
  /\ (p_is_active project = false ->
      fst (ProjectController.deActive req w)
        = Throw (BadRequestError "project.errors.project_deactivated_alredy")
      /\ store (snd (ProjectController.deActive req w)) = store w)
  /\ (p_is_active project = false ->
      let w' := snd (ProjectController.active req w) in
      fst (ProjectController.active req w)
        = Ok (mkResponse 200 "project.messages.project_successfuly_activated"
                (OfProject
                   (mkProject (p_id project) (p_name project)
                              (p_description project) (p_company_id project)
                              true (p_created_by project) (p_deleted project))))
      /\ projects (store w')
         = map (fun q =>
                  if by_id pid q
                  then mkProject (p_id q) (p_name q) (p_description q)
                                 (p_company_id q) true (p_created_by q)
                                 (p_deleted q)
                  else q)
               (projects (store w))
      /\ companies (store w') = companies (store w)
      /\ users (store w') = users (store w)
      /\ managers (store w') = managers (store w)
      /\ positions (store w') = positions (store w)
      /\ next_id (store w') = next_id (store w))
  /\ (p_is_active project = true ->
      let w' := snd (ProjectController.deActive req w) in
      fst (ProjectController.deActive req w)
        = Ok (mkResponse 200 "project.messages.project_successfuly_deactivated"
                (OfProject
                   (mkProject (p_id project) (p_name project)
                              (p_description project) (p_company_id project)
                              false (p_created_by project) (p_deleted project))))
      /\ projects (store w')
         = map (fun q =>
                  if by_id pid q
                  then mkProject (p_id q) (p_name q) (p_description q)
                                 (p_company_id q) false (p_created_by q)
                                 (p_deleted q)
                  else q)
               (projects (store w))
      /\ companies (store w') = companies (store w)
      /\ users (store w') = users (store w)
      /\ managers (store w') = managers (store w)
      /\ positions (store w') = positions (store w)
      /\ next_id (store w') = next_id (store w)).
Proof.
  intros Hcast Hsel Hnd.
  pose proof (put_doc_set_active true pid project _ Hnd Hsel) as Hon.
  pose proof (put_doc_set_active false pid project _ Hnd Hsel) as Hoff.
  unfold set_active in Hon, Hoff.
  repeat split; intros; run; try reflexivity.
  - cbn. exact Hon.
  - cbn. exact Hoff.
Qed.

(** ** Assigning and unassigning a manager *)

(** C4 (amended). When the user already holds an assignment on the project,
    assigning fails with BadRequestError, message
    the_user_is_currently_an_manager_for_project, whatever type a new
    assignment would get, and the store stays as it was. *)
Theorem manager_rejects_assigned (default_type : string) (req : Req) (w : World)
    (pid uid : ObjectId) (project : Project) (user : User) (m : Manager) :
  cast_oid (params_id req) = Some pid ->
  select (by_id pid) (projects (store w)) = Some project ->
  cast_oid (body_manager_id req) = Some uid ->
  select (by_id uid) (users (store w)) = Some user ->
  select (same_key "projects" pid uid) (managers (store w)) = Some m ->
  fst (ProjectController.manager default_type req w)
    = Throw (BadRequestError
               "project.errors.the_user_is_currently_an_manager_for_project")
  /\ store (snd (ProjectController.manager default_type req w)) = store w.
Proof.
  intros Hp Hproject Hu Huser Hm.
  pose proof (select_by_id _ _ _ Hproject) as Hpid.
  pose proof (select_by_id _ _ _ Huser) as Huid.
  cbn in Hpid, Huid. split; run; rewrite Hpid, Huid; run; reflexivity.
Qed.

(** C5 (amended). When the user holds no assignment on the project,
    unassigning fails with BadRequestError, message
    the_user_is_not_an_manager_for_project, and the store stays as it was. *)
Theorem deleteManager_rejects_unassigned (req : Req) (w : World)
    (pid uid : ObjectId) (project : Project) (user : User) :
  cast_oid (params_id req) = Some pid ->
  select (by_id pid) (projects (store w)) = Some project ->
  cast_oid (body_manager_id req) = Some uid ->
  select (by_id uid) (users (store w)) = Some user ->
  select (same_key "projects" pid uid) (managers (store w)) = None ->
  fst (ProjectController.deleteManager req w)
    = Throw (BadRequestError
               "project.errors.the_user_is_not_an_manager_for_project")
  /\ store (snd (ProjectController.deleteManager req w)) = store w.
Proof.
  intros Hp Hproject Hu Huser Hm.
  pose proof (select_by_id _ _ _ Hproject) as Hpid.
  pose proof (select_by_id _ _ _ Huser) as Huid.
  cbn in Hpid, Huid. split; run; rewrite Hpid, Huid; run; reflexivity.
Qed.

Lemma soft_delete_live (i : ObjectId) (docs : list Manager) (m : Manager) :
  NoDup (map m_id docs) -> In m docs -> m_id m = i ->
  forall x, In x (filter live (soft_delete i docs))
            <-> In x (filter live docs) /\ x <> m.
Proof.
  intros Hnd Hm Hid x. rewrite !filter_In. unfold soft_delete.
  rewrite in_map_iff. split.
  - intros [[y [Hy Hin]] Hl]. destruct (by_id i y) eqn:E.
    + subst x. discriminate Hl.
    + subst x. repeat split; auto. intros ->.
      unfold by_id in E. cbn in E. rewrite Hid, N.eqb_refl in E. discriminate.
  - intros [[Hin Hl] Hne]. split; auto. exists x. split; auto.
    destruct (by_id i x) eqn:E; auto. exfalso. apply Hne.
    unfold by_id in E. cbn in E. apply N.eqb_eq in E.
    apply (NoDup_map_inj m_id docs); auto. congruence.
Qed.

Lemma soft_delete_owners (e : string) (eid i : ObjectId) (docs : list Manager) :
  (forall y, In y docs -> m_id y = i -> is_owner_of e eid y = false) ->
  filter (is_owner_of e eid) (soft_delete i docs)
  = filter (is_owner_of e eid) docs.
Proof.
  induction docs as [|a docs IH]; intros Hall; [reflexivity|].
  change (soft_delete i (a :: docs))
    with ((if by_id i a then mark_deleted a else a) :: soft_delete i docs).
  cbn [filter]. rewrite IH by (intros y Hy; apply Hall; now right).
  destruct (by_id i a) eqn:E; [|reflexivity].
  unfold by_id in E. cbn in E. apply N.eqb_eq in E.
  rewrite (Hall a (or_introl eq_refl) E). reflexivity.
Qed.

Lemma soft_delete_key (e : string) (eid uid : ObjectId) (docs : list Manager)
    (m : Manager) :
  NoDup (map assignment_key (filter live docs)) ->
  select (same_key e eid uid) docs = Some m ->
  select (same_key e eid uid) (soft_delete (m_id m) docs) = None.
Proof.
  intros Hnd Hsel. apply select_sound in Hsel. destruct Hsel as (Hin & Hl & Hk).
  apply select_none. intros x Hx Hkx.
  unfold soft_delete in Hx. apply in_map_iff in Hx. destruct Hx as [y [Hy Hyin]].
  destruct (by_id (m_id m) y) eqn:E; subst x; [reflexivity|].
  destruct (deleted y) eqn:Hd; [reflexivity|]. exfalso.
  assert (y = m) as ->.
  { apply (NoDup_map_inj assignment_key (filter live docs)); auto.
    - apply filter_In. split; auto. unfold live. now rewrite Hd.
    - apply filter_In. split; auto. unfold live. now rewrite Hl.
    - unfold same_key in Hk, Hkx. unfold assignment_key.
      repeat (match goal with H : _ && _ = true |- _ =>
                apply andb_prop in H; destruct H end).
      repeat (match goal with
              | H : String.eqb _ _ = true |- _ => apply String.eqb_eq in H
              | H : (_ =? _)%N = true |- _ => apply N.eqb_eq in H
              end).
      congruence. }
  unfold by_id in E. rewrite N.eqb_refl in E. discriminate.
Qed.

(** C3 (amended). Unassigning fails with BadRequestError, message
    the_owner_manager_cannot_be_deleted, exactly when the target assignment's
    type is owner, whether or not it is the only owner; an assignment of any
    other type is removed, the other live assignments stay; and unassigning
    never changes the number of owner assignments of any entity. *)
Theorem deleteManager_owner_guard (req : Req) (w : World) (pid uid : ObjectId)
    (project : Project) (user : User) (m : Manager) :
  cast_oid (params_id req) = Some pid ->
  select (by_id pid) (projects (store w)) = Some project ->
  cast_oid (body_manager_id req) = Some uid ->
  select (by_id uid) (users (store w)) = Some user ->
  select (same_key "projects" pid uid) (managers (store w)) = Some m ->
  NoDup (map m_id (managers (store w))) ->
  (m_type m = "owner" <->
   fst (ProjectController.deleteManager req w)
     = Throw (BadRequestError
                "project.errors.the_owner_manager_cannot_be_deleted"))
  /\ (m_type m = "owner" ->
      store (snd (ProjectController.deleteManager req w)) = store w)
  /\ (m_type m <> "owner" ->
      (exists resp, fst (ProjectController.deleteManager req w) = Ok resp
                    /\ status resp = 200)
      /\ forall x,
          In x (filter live
                  (managers (store (snd (ProjectController.deleteManager req w)))))
          <-> In x (filter live (managers (store w))) /\ x <> m)
  /\ (forall entity eid,
      owner_count entity eid (store (snd (ProjectController.deleteManager req w)))
      = owner_count entity eid (store w)).
Proof.
  intros Hp Hproject Hu Huser Hm Hnd.
  pose proof (select_by_id _ _ _ Hproject) as Hpid.
  pose proof (select_by_id _ _ _ Huser) as Huid.
  pose proof (select_sound _ _ _ Hm) as (Hin & Hlive & _).
  cbn in Hpid, Huid.
  destruct (String.eqb (m_type m) "owner") eqn:Hty.
  - pose proof (proj1 (String.eqb_eq _ _) Hty) as Hown.
    repeat split; intros; try contradiction; try exact Hown;
      run; rewrite Hpid, Huid; run; reflexivity.
  - pose proof (proj1 (String.eqb_neq _ _) Hty) as Hown.
    split; [|split; [|split]].
    + split; [intros; contradiction|].
      run. rewrite Hpid, Huid. run. discriminate.
    + intros; contradiction.
    + intros _. split.
      * run. rewrite Hpid, Huid. run. eexists; split; reflexivity.
      * intros x. run. rewrite Hpid, Huid. run.
        now apply soft_delete_live.
    + intros entity eid. unfold owner_count. f_equal.
      run. rewrite Hpid, Huid. run. apply soft_delete_owners.
      intros y Hy Hyid.
      assert (y = m) as ->
          by (apply (NoDup_map_inj m_id (managers (store w))); auto).
      unfold is_owner_of. rewrite Hty. apply andb_false_r.
Qed.

(** C6. After a successful assignment, looking the triple up returns an
    assignment with the entity, entity id, user id and type just written (the
    type is the schema default: the handler takes none from the request);
    after a successful unassignment the lookup returns none. *)
Theorem assignment_round_trip (default_type : string) (req : Req)
    (w w' : World) (resp : Response) :
  (ProjectController.manager default_type req w = (Ok resp, w') ->
   exists pid uid m,
     cast_oid (params_id req) = Some pid
     /\ cast_oid (body_manager_id req) = Some uid
     /\ fst (ManagerModel.findOne "projects" pid uid w') = Ok (Some m)
     /\ m_entity m = "projects" /\ m_entity_id m = pid /\ m_user_id m = uid
     /\ m_type m = default_type /\ m_created_by m = user_id req)
  /\ (NoDup (map assignment_key (filter live (managers (store w)))) ->
      ProjectController.deleteManager req w = (Ok resp, w') ->
      exists pid uid,
        cast_oid (params_id req) = Some pid
        /\ cast_oid (body_manager_id req) = Some uid
        /\ fst (ManagerModel.findOne "projects" pid uid w') = Ok None).
Proof.
  split.
  - intros Hrun. unfold_handlers_in Hrun. cbn in Hrun.
    destruct (cast_oid (params_id req)) as [pid|] eqn:Hp;
      cbn in Hrun; [|discriminate].
    destruct (select (by_id pid) (projects (store w))) as [project|] eqn:Hproject;
      cbn in Hrun; [|discriminate].
    destruct (cast_oid (body_manager_id req)) as [uid|] eqn:Hu;
      cbn in Hrun; [|discriminate].
    destruct (select (by_id uid) (users (store w))) as [user|] eqn:Huser;
      cbn in Hrun; [|discriminate].
    destruct (select (same_key "projects" (p_id project) (u_id user))
                     (managers (store w))) as [m|] eqn:Hm;
      cbn in Hrun; [discriminate|].
    pose proof (select_by_id _ _ _ Hproject) as Hpid.
    pose proof (select_by_id _ _ _ Huser) as Huid.
    cbn in Hpid, Huid. subst pid uid.
    injection Hrun as _ Hw. subst w'.
    eexists _, _, _. split; [reflexivity|]. split; [reflexivity|].
    split.
    + unfold_handlers. cbn. rewrite (select_snoc _ _ _ Hm). cbn.
      unfold same_key. cbn. rewrite !N.eqb_refl. reflexivity.
    + cbn. auto.
  - intros Hnd Hrun. unfold_handlers_in Hrun. cbn in Hrun.
    destruct (cast_oid (params_id req)) as [pid|] eqn:Hp;
      cbn in Hrun; [|discriminate].
    destruct (select (by_id pid) (projects (store w))) as [project|] eqn:Hproject;
      cbn in Hrun; [|discriminate].
    destruct (cast_oid (body_manager_id req)) as [uid|] eqn:Hu;
      cbn in Hrun; [|discriminate].
    destruct (select (by_id uid) (users (store w))) as [user|] eqn:Huser;
      cbn in Hrun; [|discriminate].
    destruct (select (same_key "projects" (p_id project) (u_id user))
                     (managers (store w))) as [m|] eqn:Hm;
      cbn in Hrun; [|discriminate].
    destruct (String.eqb (m_type m) "owner") eqn:Hty;
      cbn in Hrun; [discriminate|].
    pose proof (select_by_id _ _ _ Hproject) as Hpid.
    pose proof (select_by_id _ _ _ Huser) as Huid.
    cbn in Hpid, Huid. subst pid uid.
    injection Hrun as _ Hw. subst w'.
    eexists _, _. split; [reflexivity|]. split; [reflexivity|].
    unfold_handlers. cbn. now rewrite (soft_delete_key _ _ _ _ _ Hnd Hm).
Qed.

(** ** The store invariant is kept *)

Lemma same_key_spec (e : string) (eid uid : ObjectId) (m : Manager) :
  same_key e eid uid m = true <-> assignment_key m = (e, eid, uid).
Proof.
  unfold same_key, assignment_key.
  rewrite !andb_true_iff, String.eqb_eq, !N.eqb_eq.
  split; [intros [[-> ->] ->]; reflexivity | intros [= -> -> ->]; auto].
Qed.

Lemma select_none_live {D} `{Document D} (q : D -> bool) (docs : list D) (d : D) :
  select q docs = None -> In d docs -> live d = true -> q d = false.
Proof.
  unfold select, live. intros Hn Hin Hl.
  pose proof (find_none _ _ Hn d Hin) as Hd. cbn in Hd.
  rewrite Hl in Hd. exact Hd.
Qed.

Lemma soft_delete_ids (i : ObjectId) (docs : list Manager) :
  map m_id (soft_delete i docs) = map m_id docs.
Proof.
  unfold soft_delete. rewrite map_map. apply map_ext.
  intros a. now destruct (by_id i a).
Qed.

Lemma soft_delete_live_incl (i : ObjectId) (docs : list Manager) (x : Manager) :
  In x (filter live (soft_delete i docs)) -> In x (filter live docs).
Proof.
  rewrite !filter_In. unfold soft_delete. rewrite in_map_iff.
  intros [[y [Hy Hin]] Hl]. destruct (by_id i y); subst x; [discriminate Hl|auto].
Qed.

Lemma soft_delete_keys (i : ObjectId) (docs : list Manager) :
  NoDup (map assignment_key (filter live docs)) ->
  NoDup (map assignment_key (filter live (soft_delete i docs))).
Proof.
  induction docs as [|a docs IH]; intros Hnd; [constructor|].
  change (soft_delete i (a :: docs))
    with ((if by_id i a then mark_deleted a else a) :: soft_delete i docs).
  cbn [filter] in Hnd |- *.
  assert (NoDup (map assignment_key (filter live docs))) as Htail
      by (destruct (live a); [now inversion Hnd | exact Hnd]).
  destruct (by_id i a).
  - change (live (mark_deleted a)) with false. cbn iota. auto.
  - destruct (live a) eqn:Hl; [|auto].
    cbn [map]. constructor; [|auto].
    inversion Hnd as [|k ks Hnotin _]; subst.
    intros Hin. apply Hnotin.
    apply in_map_iff in Hin. destruct Hin as [x [Hk Hx]].
    apply in_map_iff. exists x. split; [exact Hk|].
    now apply (soft_delete_live_incl i).
Qed.

(** A successful assignment keeps the store well formed. *)
Lemma manager_keeps_wf (default_type : string) (req : Req) (w w' : World)
    (resp : Response) :
  wf_store (store w) ->
  ProjectController.manager default_type req w = (Ok resp, w') ->
  wf_store (store w').
Proof.
  intros [Hpi Hmi Hpf Hmf Hk] Hrun. unfold_handlers_in Hrun. cbn in Hrun.
  destruct (cast_oid (params_id req)) as [pid|]; cbn in Hrun; [|discriminate].
  destruct (select (by_id pid) (projects (store w))) as [project|];
    cbn in Hrun; [|discriminate].
  destruct (cast_oid (body_manager_id req)) as [uid|]; cbn in Hrun; [|discriminate].
  destruct (select (by_id uid) (users (store w))) as [user|];
    cbn in Hrun; [|discriminate].
  destruct (select (same_key "projects" (p_id project) (u_id user))
                   (managers (store w))) as [m|] eqn:Hm;
    cbn in Hrun; [discriminate|].
  injection Hrun as _ Hw. subst w'. constructor; cbn.
  - exact Hpi.
  - rewrite map_app. cbn. apply NoDup_app; [exact Hmi | repeat constructor; auto |].
    intros i Hi [<-|[]]. apply in_map_iff in Hi. destruct Hi as [x [Hx Hin]].
    rewrite Forall_forall in Hmf. specialize (Hmf x Hin). cbn in Hmf. lia.
  - eapply Forall_impl; [|exact Hpf]. cbn. intros; lia.
  - apply Forall_app. split.
    + eapply Forall_impl; [|exact Hmf]. cbn. intros; lia.
    + repeat constructor. cbn. lia.
  - rewrite filter_app, map_app. cbn.
    apply NoDup_app; [exact Hk | repeat constructor; auto |].
    intros k Hin [<-|[]]. apply in_map_iff in Hin. destruct Hin as [x [Hx Hin]].
    apply filter_In in Hin. destruct Hin as [Hin Hl].
    pose proof (select_none_live _ _ x Hm Hin Hl) as Hq.
    apply same_key_spec in Hx. cbn in Hx. congruence.
Qed.

(** A successful unassignment keeps the store well formed. *)
Lemma deleteManager_keeps_wf (req : Req) (w w' : World) (resp : Response) :
  wf_store (store w) ->
  ProjectController.deleteManager req w = (Ok resp, w') ->
  wf_store (store w').
Proof.
  intros [Hpi Hmi Hpf Hmf Hk] Hrun. unfold_handlers_in Hrun. cbn in Hrun.
  destruct (cast_oid (params_id req)) as [pid|]; cbn in Hrun; [|discriminate].
  destruct (select (by_id pid) (projects (store w))) as [project|];
    cbn in Hrun; [|discriminate].
  destruct (cast_oid (body_manager_id req)) as [uid|]; cbn in Hrun; [|discriminate].
  destruct (select (by_id uid) (users (store w))) as [user|];
    cbn in Hrun; [|discriminate].
  destruct (select (same_key "projects" (p_id project) (u_id user))
                   (managers (store w))) as [m|];
    cbn in Hrun; [|discriminate].
  destruct (String.eqb (m_type m) "owner"); cbn in Hrun; [discriminate|].
  injection Hrun as _ Hw. subst w'. constructor; cbn.
  - exact Hpi.
  - now rewrite soft_delete_ids.
  - exact Hpf.
  - apply Forall_forall. intros x Hx.
    apply (in_map m_id) in Hx. rewrite soft_delete_ids in Hx.
    apply in_map_iff in Hx. destruct Hx as [y [Hy Hin]].
    rewrite Forall_forall in Hmf. rewrite <- Hy. now apply Hmf.
  - now apply soft_delete_keys.
Qed.

(** ** Events and commits *)

(** Case analysis on the queries and tests of an unfolded handler run. *)
Ltac crack H :=
  repeat match type of H with
         | context [cast_oid ?s] =>
             destruct (cast_oid s) eqn:?; cbn in H; try discriminate H
         | context [select ?q ?l] =>
             destruct (select q l) eqn:?; cbn in H; try discriminate H
         | context [String.eqb ?a ?b] =>
             destruct (String.eqb a b) eqn:?; cbn in H; try discriminate H
         | context [p_is_active ?p] =>
             destruct (p_is_active p) eqn:?; cbn in H; try discriminate H
         | context [c_is_active ?c] =>
             destruct (c_is_active c) eqn:?; cbn in H; try discriminate H
         end.

Ltac trace_of H :=
  injection H as _ H; subst; cbn; eexists; split;
  [ rewrite <- !app_assoc; cbn; reflexivity | reflexivity ].

(** The handlers that create, delete, assign, activate and deactivate emit
    their event after the write is committed. *)
Lemma create_emits_after_commit (default_is_active : bool) (req : Req)
    (w w' : World) (resp : Response) :
  ProjectController.create default_is_active req w = (Ok resp, w') ->
  exists t, trace w' = (trace w ++ t)%list /\ emitted_after_commit false t = true.
Proof.
  intros Hrun. unfold_handlers_in Hrun. cbn in Hrun. crack Hrun; trace_of Hrun.
Qed.

Lemma delete_emits_after_commit (req : Req) (w w' : World) (resp : Response) :
  ProjectController.delete req w = (Ok resp, w') ->
  exists t, trace w' = (trace w ++ t)%list /\ emitted_after_commit false t = true.
Proof.
  intros Hrun. unfold_handlers_in Hrun. cbn in Hrun. crack Hrun; trace_of Hrun.
Qed.

Lemma manager_emits_after_commit (default_type : string) (req : Req)
    (w w' : World) (resp : Response) :
  ProjectController.manager default_type req w = (Ok resp, w') ->
  exists t, trace w' = (trace w ++ t)%list /\ emitted_after_commit false t = true.
Proof.
  intros Hrun. unfold_handlers_in Hrun. cbn in Hrun. crack Hrun; trace_of Hrun.
Qed.

Lemma active_emits_after_commit (req : Req) (w w' : World) (resp : Response) :
  ProjectController.active req w = (Ok resp, w') ->
  exists t, trace w' = (trace w ++ t)%list /\ emitted_after_commit false t = true.
Proof.
  intros Hrun. unfold_handlers_in Hrun. cbn in Hrun. crack Hrun; trace_of Hrun.
Qed.

Lemma deActive_emits_after_commit (req : Req) (w w' : World) (resp : Response) :
  ProjectController.deActive req w = (Ok resp, w') ->
  exists t, trace w' = (trace w ++ t)%list /\ emitted_after_commit false t = true.
Proof.
  intros Hrun. unfold_handlers_in Hrun. cbn in Hrun. crack Hrun; trace_of Hrun.
Qed.

(** Unassigning emits its event first and commits the removal afterwards, on
    every successful run. *)
Lemma deleteManager_emits_before_commit (req : Req) (w w' : World)
    (resp : Response) :
  ProjectController.deleteManager req w = (Ok resp, w') ->
  exists t, trace w' = (trace w ++ t)%list /\ emitted_after_commit false t = false.
Proof.
  intros Hrun. unfold_handlers_in Hrun. cbn in Hrun. crack Hrun; trace_of Hrun.
Qed.

(** C7. Unassigning Carol, a manager of the sample project: the
    [UNSET_MANAGER] event is on the trace before the removal is committed. *)
Theorem unset_manager_event_precedes_commit :
  fst (ProjectController.deleteManager (manager_request key_carol) sample_world)
  = Ok (mkResponse 200 "project.messages.project_manager_successfully_deleted"
                   (OfProject apollo))
  /\ trace (snd (ProjectController.deleteManager (manager_request key_carol)
                                                 sample_world))
     = [Lookup "projects"; Lookup "users"; Lookup "managers";
        Emit UNSET_MANAGER id_project; Commit "managers" 3%N]
  /\ emitted_after_commit false
       (trace (snd (ProjectController.deleteManager (manager_request key_carol)
                                                    sample_world))) = false.
Proof. repeat split. Qed.

(** ** The authorization pipeline *)

Lemma isMongoId_cast (key : string) (i : ObjectId) :
  cast_oid key = Some i -> isMongoId key = true.
Proof. unfold isMongoId. now intros ->. Qed.

Lemma isMongoId_no_cast (key : string) :
  cast_oid key = None -> isMongoId key = false.
Proof. unfold isMongoId. now intros ->. Qed.

Lemma live_absent {D} `{Document D} (i : ObjectId) (docs : list D) :
  (forall d, In d docs -> _id d = i -> deleted d = true) ->
  select (by_id i) docs = None.
Proof.
  intros Hall. apply select_none. intros d Hin Hq. apply Hall; auto.
  unfold by_id in Hq. now apply N.eqb_eq.
Qed.

Lemma bind_throw {A B} (c : M A) (k : A -> M B) (w w' : World) (e : HttpError) :
  c w = (Throw e, w') -> bind c k w = (Throw e, w').
Proof. unfold bind. now intros ->. Qed.

Section Stages.
Variable subrouter : string -> option string -> list string -> Request
                     -> option (M Response).

Lemma dispatch_cons (m : Mount) (others : list Mount) (req : Request) :
  dispatch subrouter (m :: others) req
  = match match_path (mount_path m) (url req) None with
    | Some (id, rest) =>
        r <- run_stages subrouter (mount_stages m) req id rest ;;
        match r with
        | Some resp => ret (Some resp)
        | None => dispatch subrouter others req
        end
    | None => dispatch subrouter others req
    end.
Proof. reflexivity. Qed.


(** Behind a passed gate the scope loader stops an ill-formed key. *)
Lemma scoped_stages_bad_key (st : Stage) (more : list Stage) (req : Request)
    (key : string) (rest : list string) (w : World) (p : Principal) :
  st = companyAccess \/ st = projectAccess ->
  credential req = Some p ->
  hasPermission (principal_role p) (resource req) (action req) = true ->
  isMongoId key = false ->
  run_stages subrouter (verifyToken :: canAccess :: st :: more) req (Some key)
             rest w
  = (Throw (BadRequestError "invalid_identifier"), w).
Proof.
  intros Hst Hcred Hperm Hbad. cbn [run_stages].
  destruct Hst as [-> | ->]; cbn [run_stage];
    unfold_handlers; rewrite Hcred; cbn; rewrite Hperm; cbn;
    rewrite Hbad; reflexivity.
Qed.

End Stages.

(** Try the next mount of the table against a request whose path is known. *)
Ltac hop Hurl :=
  rewrite dispatch_cons, Hurl;
  cbn [match_path mount_path mount_stages];
  try match goal with
      | H : lower ?h = _ |- context [lower ?h] => rewrite H
      end;
  repeat match goal with
         | |- context [String.eqb ?a ?b] =>
             let v := eval vm_compute in (String.eqb a b) in
             match v with
             | true => change (String.eqb a b) with true
             | false => change (String.eqb a b) with false
             end
         end;
  cbv beta iota.



(** C2. A principal who owns company C passes the evaluator on a project of C
    when [owner_or_manager] is required; when [owner] is required it passes
    exactly when it holds an owner assignment on the project itself.  A
    principal who owns only the project and holds no assignment on C is not
    let through to C at any strength by that assignment: the request is
    denied as not_a_manager unless the role carries the manage wildcard for
    companies. *)
Theorem company_owner_scope (w : World) (req : Request) (p : Principal)
    (key : string) (pid : ObjectId) (project : Project) (company : Company)
    (mc : Manager) :
  credential req = Some p ->
  cast_oid key = Some pid ->
  select (by_id pid) (projects (store w)) = Some project ->
  select (by_id (p_company_id project)) (companies (store w)) = Some company ->
  select (same_key "companies" (c_id company) (userId p)) (managers (store w))
    = Some mc ->
  m_type mc = "owner" ->
  (required req = scoped owner_or_manager ->
   fst (access RProject req (Some key) w) = Ok tt)
  /\ (required req = scoped owner ->
      (fst (access RProject req (Some key) w) = Ok tt
       <-> exists mp,
             select (same_key "projects" pid (userId p)) (managers (store w))
               = Some mp
             /\ m_type mp = "owner"))
  /\ (forall (req' : Request) (q : Principal) (ckey : string) (mp : Manager)
             (s : Strength),
      credential req' = Some q ->
      cast_oid ckey = Some (c_id company) ->
      required req' = scoped s ->
      select (same_key "projects" pid (userId q)) (managers (store w)) = Some mp ->
      m_type mp = "owner" ->
      select (same_key "companies" (c_id company) (userId q)) (managers (store w))
        = None ->
      fst (access RCompany req' (Some ckey) w)
      = if grants (principal_role q) (RCompany, AManage) then Ok tt
        else Throw (ForbiddenError "not_a_manager")).
Proof.
  intros Hcred Hkey Hproject Hcompany Hmc Hty.
  pose proof (isMongoId_cast _ _ Hkey) as Hvalid.
  pose proof (select_by_id _ _ _ Hproject) as Hpid. cbn in Hpid.
  pose proof (select_by_id _ _ _ Hcompany) as Hcid. cbn in Hcid.
  apply String.eqb_eq in Hty.
  split; [|split].
  - intros Hreq. unfold access. rewrite Hreq. run. rewrite Hcred. run.
    rewrite Hpid.
    destruct (select (same_key "projects" pid (userId p)) (managers (store w)));
      run; reflexivity.
  - intros Hreq. unfold access. rewrite Hreq. run. rewrite Hcred. run.
    rewrite Hpid.
    destruct (select (same_key "projects" pid (userId p)) (managers (store w)))
      as [mp|] eqn:Hmp; run.
    + destruct (String.eqb (m_type mp) "owner") eqn:Hmpty; cbn.
      * split; [intros _|reflexivity]. exists mp.
        apply String.eqb_eq in Hmpty. auto.
      * split; [discriminate|]. intros [mp' [[= <-] Hown]].
        apply String.eqb_eq in Hown. congruence.
    + split; [discriminate|]. intros [mp' [[=] _]].
  - intros req' q ckey mp s Hcred' Hckey Hreq' Hmp Hmpty Hnone.
    pose proof (isMongoId_cast _ _ Hckey) as Hvalid'.
    rewrite <- Hcid in Hcompany.
    unfold access. rewrite Hreq'. run. rewrite Hcred'. run.
    unfold has_wildcard. cbn.
    destruct (grants (principal_role q) (RCompany, AManage)); reflexivity.
Qed.

(** C8. A key that is not well formed is rejected with BadRequestError
    before anything is looked up, by the scope loader, by a route's validator
    and by the whole pipeline once the gate is passed; a well-formed key
    without a matching document that is not deleted ends in NotFoundError. *)
Theorem identifier_checked_before_lookup (key : string) (w : World) :
  (cast_oid key = None ->
   (forall rt, load_scope rt key w
               = (Throw (BadRequestError "invalid_identifier"), w))
   /\ (forall req, params_id req = key ->
         route validate_id ProjectController.find req w
         = (Throw (BadRequestError "invalid_identifier"), w))
   /\ (forall subrouter req p head rest,
         url req = head :: key :: rest ->
         head = "companies" \/ head = "projects" ->
         credential req = Some p ->
         hasPermission (principal_role p) (resource req) (action req) = true ->
         dispatch subrouter router req w
         = (Throw (BadRequestError "invalid_identifier"), w)))
  /\ (forall i, cast_oid key = Some i ->
      ((forall d, In d (projects (store w)) -> p_id d = i -> p_deleted d = true) ->
       (forall req, params_id req = key ->
          fst (route validate_id ProjectController.find req w)
          = Throw (NotFoundError "project.errors.project_notfound"))
       /\ fst (load_scope RProject key w)
          = Throw (NotFoundError "resource_not_found"))
      /\ ((forall d, In d (companies (store w)) -> c_id d = i -> c_deleted d = true) ->
          fst (load_scope RCompany key w)
          = Throw (NotFoundError "resource_not_found"))).
Proof.
  split.
  - intros Hkey. pose proof (isMongoId_no_cast _ Hkey) as Hbad.
    split; [|split].
    + intros rt. run. reflexivity.
    + intros req <-. run. reflexivity.
    + intros subrouter req p head rest Hurl Hhead Hcred Hperm.
      destruct Hhead as [-> | ->]; unfold router; repeat hop Hurl;
        apply bind_throw; apply (scoped_stages_bad_key _ _ _ _ _ _ _ p); auto.
  - intros i Hkey. pose proof (isMongoId_cast _ _ Hkey) as Hok. split.
    + intros Habsent.
      pose proof (live_absent i (projects (store w)) Habsent) as Hnone.
      split; [intros req Hreq; rewrite <- Hreq in Hkey, Hok|]; run; reflexivity.
    + intros Habsent.
      pose proof (live_absent i (companies (store w)) Habsent) as Hnone.
      run. reflexivity.
Qed.

(** ** The properties on the sample store *)

Lemma sample_project_ids : NoDup (map p_id (projects sample_store)).
Proof.
  cbn. repeat constructor; cbn; intuition discriminate.
Defined.

Lemma sample_manager_ids : NoDup (map m_id (managers sample_store)).
Proof.
  cbn. repeat constructor; cbn; intuition discriminate.
Defined.

Lemma sample_assignment_keys :
  NoDup (map assignment_key (filter live (managers sample_store))).
Proof.
  cbn. repeat constructor; cbn; intuition discriminate.
Defined.

Lemma sample_store_wf : wf_store sample_store.
Proof.
  constructor.
  - exact sample_project_ids.
  - exact sample_manager_ids.
  - cbn. repeat constructor; cbn; reflexivity.
  - cbn. repeat constructor; cbn; reflexivity.
  - exact sample_assignment_keys.
Qed.

(** Creating a project under an unknown company, under the inactive company
    and under a name already attached. *)
Lemma create_rejections_witness :
  fst (ProjectController.create true (create_request "Apollo" key_unknown)
                                sample_world)
  = Throw (NotFoundError "company.errors.company_notfound")
  /\ fst (ProjectController.create true (create_request "Apollo" key_idle)
                                   sample_world)
     = Throw (BadRequestError
                "project.errors.disabled_companey_create_project_error")
  /\ fst (ProjectController.create true (create_request "Apollo" key_company)
                                   sample_world)
     = Throw (AlreadyExists "project.errors.project_already_attached_company")
  /\ store (snd (ProjectController.create true
                   (create_request "Apollo" key_company) sample_world))
     = sample_store.
Proof.
  split; [|split; [|split]].
  - apply (proj1 (create_rejections true (create_request "Apollo" key_unknown)
                                    sample_world id_unknown eq_refl)).
    reflexivity.
  - apply (proj1 (proj2 (create_rejections true (create_request "Apollo" key_idle)
                                           sample_world id_idle eq_refl))
                 idle); reflexivity.
  - apply (proj2 (proj2 (create_rejections true
                           (create_request "Apollo" key_company)
                           sample_world id_company eq_refl))
                 acme apollo); reflexivity.
  - apply (proj2 (proj2 (create_rejections true
                           (create_request "Apollo" key_company)
                           sample_world id_company eq_refl))
                 acme apollo); reflexivity.
Defined.

(** Apollo is active, Gemini is not: activating Gemini makes it active,
    name, description, company and creator as before, and leaves Apollo as it
    is; deactivating Apollo does the converse. *)
Lemma activation_frame_witness :
  fst (ProjectController.active (project_request key_project) sample_world)
  = Throw (BadRequestError "project.errors.project_activated_alredy")
  /\ fst (ProjectController.deActive (project_request key_gemini) sample_world)
     = Throw (BadRequestError "project.errors.project_deactivated_alredy")
  /\ fst (ProjectController.active (project_request key_gemini) sample_world)
     = Ok (mkResponse 200 "project.messages.project_successfuly_activated"
             (OfProject (mkProject id_gemini "Gemini" "capsule" id_company true
                                   id_alice false)))
  /\ projects (store (snd (ProjectController.active (project_request key_gemini)
                                                    sample_world)))
     = [apollo;
        mkProject id_gemini "Gemini" "capsule" id_company true id_alice false]
  /\ projects (store (snd (ProjectController.deActive
                             (project_request key_project) sample_world)))
     = [mkProject id_project "Apollo" "launcher" id_company false id_alice
                  false;
        gemini].
Proof.
  split; [|split; [|split; [|split]]].
  - refine (proj1 (proj1 (activation_frame (project_request key_project)
                                           sample_world id_project apollo
                                           eq_refl eq_refl sample_project_ids)
                         eq_refl)).
  - refine (proj1 (proj1 (proj2 (activation_frame (project_request key_gemini)
                                                  sample_world id_gemini gemini
                                                  eq_refl eq_refl
                                                  sample_project_ids))
                         eq_refl)).
  - refine (proj1 (proj1 (proj2 (proj2 (activation_frame
                                          (project_request key_gemini)
                                          sample_world id_gemini gemini
                                          eq_refl eq_refl sample_project_ids)))
                         eq_refl)).
  - refine (proj1 (proj2 (proj1 (proj2 (proj2 (activation_frame
                                          (project_request key_gemini)
                                          sample_world id_gemini gemini
                                          eq_refl eq_refl sample_project_ids)))
                         eq_refl))).
  - refine (proj1 (proj2 (proj2 (proj2 (proj2 (activation_frame
                                          (project_request key_project)
                                          sample_world id_project apollo
                                          eq_refl eq_refl sample_project_ids)))
                         eq_refl))).
Defined.

(** Carol is assigned to Apollo already. *)
Lemma manager_rejects_assigned_witness :
  fst (ProjectController.manager "owner" (manager_request key_carol) sample_world)
  = Throw (BadRequestError
             "project.errors.the_user_is_currently_an_manager_for_project")
  /\ store (snd (ProjectController.manager "owner" (manager_request key_carol)
                                           sample_world))
     = sample_store.
Proof.
  apply (manager_rejects_assigned
           "owner" (manager_request key_carol) sample_world id_project id_carol
           apollo (mkUser id_carol false)
           (mkManager 3%N "projects" id_project id_carol "manager" id_alice false));
    reflexivity.
Defined.

(** Dave holds no assignment on Apollo. *)
Lemma deleteManager_rejects_unassigned_witness :
  fst (ProjectController.deleteManager (manager_request key_dave) sample_world)
  = Throw (BadRequestError
             "project.errors.the_user_is_not_an_manager_for_project")
  /\ store (snd (ProjectController.deleteManager (manager_request key_dave)
                                                 sample_world))
     = sample_store.
Proof.
  apply (deleteManager_rejects_unassigned
           (manager_request key_dave) sample_world id_project id_dave
           apollo (mkUser id_dave false)); reflexivity.
Defined.

(** Bob is one of two owners of Apollo, Carol a manager. *)
Lemma deleteManager_owner_guard_witness :
  fst (ProjectController.deleteManager (manager_request key_bob) sample_world)
  = Throw (BadRequestError "project.errors.the_owner_manager_cannot_be_deleted")
  /\ (exists resp,
        fst (ProjectController.deleteManager (manager_request key_carol)
                                             sample_world) = Ok resp
        /\ status resp = 200)
  /\ owner_count "projects" id_project
       (store (snd (ProjectController.deleteManager (manager_request key_carol)
                                                    sample_world))) = 2.
Proof.
  split; [|split].
  - apply (proj1 (deleteManager_owner_guard
                    (manager_request key_bob) sample_world id_project id_bob
                    apollo (mkUser id_bob false)
                    (mkManager 2%N "projects" id_project id_bob "owner" id_alice
                               false)
                    eq_refl eq_refl eq_refl eq_refl eq_refl sample_manager_ids)).
    reflexivity.
  - refine (proj1 (proj1 (proj2 (proj2 (deleteManager_owner_guard
                    (manager_request key_carol) sample_world id_project id_carol
                    apollo (mkUser id_carol false)
                    (mkManager 3%N "projects" id_project id_carol "manager"
                               id_alice false)
                    eq_refl eq_refl eq_refl eq_refl eq_refl
                    sample_manager_ids))) _)).
    discriminate.
  - rewrite (proj2 (proj2 (proj2 (deleteManager_owner_guard
                    (manager_request key_carol) sample_world id_project id_carol
                    apollo (mkUser id_carol false)
                    (mkManager 3%N "projects" id_project id_carol "manager"
                               id_alice false)
                    eq_refl eq_refl eq_refl eq_refl eq_refl
                    sample_manager_ids)))).
    reflexivity.
Defined.

(** Dave is assigned to Apollo and found again; Carol is unassigned and no
    longer found. *)
Lemma assignment_round_trip_witness :
  (exists m,
     fst (ManagerModel.findOne "projects" id_project id_dave
            (snd (ProjectController.manager "manager" (manager_request key_dave)
                                            sample_world)))
     = Ok (Some m)
     /\ m_entity m = "projects" /\ m_entity_id m = id_project
     /\ m_user_id m = id_dave /\ m_type m = "manager")
  /\ fst (ManagerModel.findOne "projects" id_project id_carol
            (snd (ProjectController.deleteManager (manager_request key_carol)
                                                  sample_world)))
     = Ok None.
Proof.
  split.
  - destruct (proj1 (assignment_round_trip
                       "manager" (manager_request key_dave) sample_world
                       (snd (ProjectController.manager
                               "manager" (manager_request key_dave) sample_world))
                       (mkResponse
                          201
                          "project.messages.project_manager_successfully_updated"
                          (OfProject apollo)))
                    eq_refl)
      as (pid & uid & m & Hp & Hu & Hfind & He & Hi & Hus & Hty & _).
    injection Hp as <-. injection Hu as <-.
    exists m. repeat split; assumption.
  - destruct (proj2 (assignment_round_trip
                       "manager" (manager_request key_carol) sample_world
                       (snd (ProjectController.deleteManager
                               (manager_request key_carol) sample_world))
                       (mkResponse
                          200
                          "project.messages.project_manager_successfully_deleted"
                          (OfProject apollo)))
                    sample_assignment_keys eq_refl)
      as (pid & uid & Hp & Hu & Hfind).
    injection Hp as <-. injection Hu as <-. exact Hfind.
Defined.


(** Alice owns Acme and holds no assignment on Gemini, a project of Acme: her
    company ownership lets her through where [owner_or_manager] is required
    and not where [owner] is.  On Apollo, where she is an owner of the project
    itself, [owner] is met.  Bob owns Apollo only and is not let through to
    Acme. *)
Lemma company_owner_scope_witness :
  select (same_key "projects" id_gemini id_alice) (managers (store sample_world))
  = None
  /\ fst (access RProject
            (scoped_request ["projects"; key_gemini] id_alice RProject ARead
                            owner_or_manager)
            (Some key_gemini) sample_world) = Ok tt
  /\ fst (access RProject
            (scoped_request ["projects"; key_gemini] id_alice RProject ADelete
                            owner)
            (Some key_gemini) sample_world) <> Ok tt
  /\ fst (access RProject
            (scoped_request ["projects"; key_project] id_alice RProject ADelete
                            owner)
            (Some key_project) sample_world) = Ok tt
  /\ fst (access RCompany
            (scoped_request ["companies"; key_company] id_bob RCompany ADelete
                            owner)
            (Some key_company) sample_world)
     = Throw (ForbiddenError "not_a_manager").
Proof.
  pose (alice := mkPrincipal id_alice viewer).
  pose (owns_acme := mkManager 4%N "companies" id_company id_alice "owner"
                               id_alice false).
  split; [reflexivity|]. split; [|split; [|split]].
  - refine (proj1 (company_owner_scope
                     sample_world
                     (scoped_request ["projects"; key_gemini] id_alice RProject
                                     ARead owner_or_manager)
                     alice key_gemini id_gemini gemini acme owns_acme
                     eq_refl eq_refl eq_refl eq_refl eq_refl eq_refl) eq_refl).
  - intros Hpass.
    destruct (proj1 (proj1 (proj2 (company_owner_scope
                       sample_world
                       (scoped_request ["projects"; key_gemini] id_alice
                                       RProject ADelete owner)
                       alice key_gemini id_gemini gemini acme owns_acme
                       eq_refl eq_refl eq_refl eq_refl eq_refl eq_refl))
                     eq_refl) Hpass) as [mp [Hmp _]].
    discriminate Hmp.
  - refine (proj2 (proj1 (proj2 (company_owner_scope
                       sample_world
                       (scoped_request ["projects"; key_project] id_alice
                                       RProject ADelete owner)
                       alice key_project id_project apollo acme owns_acme
                       eq_refl eq_refl eq_refl eq_refl eq_refl eq_refl))
                     eq_refl) _).
    exists (mkManager 1%N "projects" id_project id_alice "owner" id_alice false).
    split; reflexivity.
  - exact (proj2 (proj2 (company_owner_scope
                    sample_world
                    (scoped_request ["projects"; key_project] id_alice RProject
                                    ARead owner_or_manager)
                    alice key_project id_project apollo acme owns_acme
                    eq_refl eq_refl eq_refl eq_refl eq_refl eq_refl))
                 (scoped_request ["companies"; key_company] id_bob RCompany
                                 ADelete owner)
                 (mkPrincipal id_bob viewer) key_company
                 (mkManager 2%N "projects" id_project id_bob "owner" id_alice
                            false)
                 owner eq_refl eq_refl eq_refl eq_refl eq_refl eq_refl).
Defined.

(** The key "fakeID" is not well formed; the well-formed unknown key names no
    project. *)
Lemma identifier_checked_before_lookup_witness :
  route validate_id ProjectController.find (project_request "fakeID") sample_world
  = (Throw (BadRequestError "invalid_identifier"), sample_world)
  /\ fst (route validate_id ProjectController.find (project_request key_unknown)
                sample_world)
     = Throw (NotFoundError "project.errors.project_notfound").
Proof.
  split.
  - apply (proj1 (proj2 (proj1 (identifier_checked_before_lookup
                                  "fakeID" sample_world) eq_refl))).
    reflexivity.
  - apply (proj1 (proj1 (proj2 (identifier_checked_before_lookup
                                  key_unknown sample_world) id_unknown eq_refl)
                        ltac:(cbn; intuition (subst; discriminate)))).
    reflexivity.
Defined.

(** ** Where the handlers and the router differ from the stated contract *)


(** C3. Bob is one of the two owners of Apollo, so not its only owner, and
    still cannot be unassigned: the failure does not coincide with being the
    sole owner. *)
Lemma second_owner_cannot_be_unassigned :
  fst (ManagerModel.findOne "projects" id_project id_bob sample_world)
  = Ok (Some (mkManager 2%N "projects" id_project id_bob "owner" id_alice false))
  /\ owner_count "projects" id_project sample_store = 2
  /\ ~ ((exists msg,
           fst (ProjectController.deleteManager (manager_request key_bob)
                                                sample_world)
           = Throw (BadRequestError msg))
        <-> sole_owner
              (mkManager 2%N "projects" id_project id_bob "owner" id_alice false)
              sample_store = true).
Proof.
  repeat split. intros [Hfail _].
  assert (sole_owner
            (mkManager 2%N "projects" id_project id_bob "owner" id_alice false)
            sample_store = true) as Hsole
      by (apply Hfail; eexists; reflexivity).
  discriminate Hsole.
Qed.

(** C4. Assigning Carol again fails, but not with AlreadyExists. *)
Lemma duplicate_assignment_is_bad_request :
  fst (ManagerModel.findOne "projects" id_project id_carol sample_world)
  = Ok (Some (mkManager 3%N "projects" id_project id_carol "manager" id_alice
                        false))
  /\ fst (ProjectController.manager "owner" (manager_request key_carol)
                                    sample_world)
     = Throw (BadRequestError
                "project.errors.the_user_is_currently_an_manager_for_project")
  /\ ~ (exists msg,
          fst (ProjectController.manager "owner" (manager_request key_carol)
                                         sample_world)
          = Throw (AlreadyExists msg)).
Proof.
  repeat split. intros [msg H]. discriminate H.
Qed.

(** C5. Unassigning Dave, who holds no assignment, fails, but not with
    NotFoundError. *)
Lemma missing_assignment_is_bad_request :
  fst (ManagerModel.findOne "projects" id_project id_dave sample_world) = Ok None
  /\ fst (ProjectController.deleteManager (manager_request key_dave) sample_world)
     = Throw (BadRequestError
                "project.errors.the_user_is_not_an_manager_for_project")
  /\ ~ (exists msg,
          fst (ProjectController.deleteManager (manager_request key_dave)
                                               sample_world)
          = Throw (NotFoundError msg)).
Proof.
  repeat split. intros [msg H]. discriminate H.
Qed.

(** * Further properties of the handlers *)

(** ** Creating, then reading *)

Lemma fresh_key_absent (s : Store) :
  Forall (fun p => (p_id p < next_id s)%N) (projects s) ->
  select (by_id (next_id s)) (projects s) = None.
Proof.
  intros Hfresh. apply live_absent. intros d Hin Hid.
  rewrite Forall_forall in Hfresh. specialize (Hfresh d Hin).
  cbn in Hid, Hfresh. lia.
Qed.

(** X1. A project created under an existing, active company with a name not
    yet attached to it is answered with 201, stored as the last project under
    a fresh key with the caller as creator, and nothing else in the store
    changes but the key generator; reading the new key afterwards returns
    the created project. *)
Theorem create_then_find (default_is_active : bool) (req : Req) (w : World)
    (cid : ObjectId) (company : Company) (key : string) :
  wf_store (store w) ->
  cast_oid (body_company_id req) = Some cid ->
  select (by_id cid) (companies (store w)) = Some company ->
  c_is_active company = true ->
  select (fun p => String.eqb (p_name p) (body_name req)
                   && (p_company_id p =? c_id company)%N)
         (projects (store w)) = None ->
  cast_oid key = Some (next_id (store w)) ->
  fst (ProjectController.create default_is_active req w)
  = Ok (mkResponse 201 "project.messages.project_successfully_created"
          (OfProject (created_project default_is_active req cid
                                      (next_id (store w)))))
  /\ store (snd (ProjectController.create default_is_active req w))
     = mkStore (companies (store w))
               (projects (store w)
                ++ [created_project default_is_active req cid
                                    (next_id (store w))])%list
               (users (store w)) (managers (store w)) (positions (store w))
               (N.succ (next_id (store w)))
  /\ forall req', params_id req' = key ->
       fst (ProjectController.find
              req' (snd (ProjectController.create default_is_active req w)))
       = Ok (mkResponse 200 "project.messages.project_found"
               (OfProject (created_project default_is_active req cid
                                           (next_id (store w))))).
Proof.
  intros Hwf Hcast Hcompany Hactive Hfree Hkey.
  pose proof (select_by_id _ _ _ Hcompany) as Hcid. cbn in Hcid.
  pose proof (fresh_key_absent _ (wf_project_fresh _ Hwf)) as Hnew.
  split; [|split].
  - run. unfold created_project. now rewrite Hcid.
  - run. unfold created_project. now rewrite Hcid.
  - intros req' <-. run.
    rewrite (select_snoc _ _ _ Hnew). unfold by_id. cbn.
    rewrite N.eqb_refl. cbn. unfold created_project. now rewrite Hcid.
Qed.

(** X2. After a project was created, the same request is rejected with
    AlreadyExists and leaves the store as the first request left it. *)
Theorem create_twice_rejected (default_is_active : bool) (req : Req)
    (w w' : World) (resp : Response) :
  ProjectController.create default_is_active req w = (Ok resp, w') ->
  fst (ProjectController.create default_is_active req w')
  = Throw (AlreadyExists "project.errors.project_already_attached_company")
  /\ store (snd (ProjectController.create default_is_active req w')) = store w'.
Proof.
  intros Hrun. unfold_handlers_in Hrun. cbn in Hrun.
  destruct (cast_oid (body_company_id req)) as [cid|] eqn:Hcast;
    cbn in Hrun; [|discriminate].
  destruct (select (by_id cid) (companies (store w))) as [company|] eqn:Hcompany;
    cbn in Hrun; [|discriminate].
  destruct (c_is_active company) eqn:Hactive; cbn in Hrun; [|discriminate].
  destruct (select (fun p => String.eqb (p_name p) (body_name req)
                             && (p_company_id p =? c_id company)%N)
                   (projects (store w))) as [d|] eqn:Hfree;
    cbn in Hrun; [discriminate|].
  injection Hrun as _ Hw. subst w'.
  split; run; rewrite (select_snoc _ _ _ Hfree); cbn;
    rewrite String.eqb_refl, N.eqb_refl; reflexivity.
Qed.

(** X3. Creating a project keeps the store well formed and keeps the names
    of the live projects of each company distinct. *)
Theorem create_keeps_invariants (default_is_active : bool) (req : Req)
    (w w' : World) (resp : Response) :
  wf_store (store w) ->
  unique_names (store w) ->
  ProjectController.create default_is_active req w = (Ok resp, w') ->
  wf_store (store w') /\ unique_names (store w').
Proof.
  intros [Hpi Hmi Hpf Hmf Hk] Hnames Hrun. unfold_handlers_in Hrun. cbn in Hrun.
  destruct (cast_oid (body_company_id req)) as [cid|] eqn:Hcast;
    cbn in Hrun; [|discriminate].
  destruct (select (by_id cid) (companies (store w))) as [company|] eqn:Hcompany;
    cbn in Hrun; [|discriminate].
  destruct (c_is_active company) eqn:Hactive; cbn in Hrun; [|discriminate].
  destruct (select (fun p => String.eqb (p_name p) (body_name req)
                             && (p_company_id p =? c_id company)%N)
                   (projects (store w))) as [d|] eqn:Hfree;
    cbn in Hrun; [discriminate|].
  injection Hrun as _ Hw. subst w'. split.
  - constructor; cbn.
    + rewrite map_app. cbn.
      apply NoDup_app; [exact Hpi | repeat constructor; auto |].
      intros i Hi [<-|[]]. apply in_map_iff in Hi. destruct Hi as [x [Hx Hin]].
      rewrite Forall_forall in Hpf. specialize (Hpf x Hin). cbn in Hpf. lia.
    + exact Hmi.
    + apply Forall_app. split.
      * eapply Forall_impl; [|exact Hpf]. cbn. intros; lia.
      * repeat constructor. cbn. lia.
    + eapply Forall_impl; [|exact Hmf]. cbn. intros; lia.
    + exact Hk.
  - unfold unique_names in *. cbn. rewrite filter_app, map_app. cbn.
    apply NoDup_app; [exact Hnames | repeat constructor; auto |].
    intros k Hin [<-|[]]. apply in_map_iff in Hin. destruct Hin as [x [Hx Hin]].
    apply filter_In in Hin. destruct Hin as [Hin Hl].
    pose proof (select_none_live _ _ x Hfree Hin Hl) as Hq. cbn in Hq.
    unfold project_name in Hx. cbn in Hx. injection Hx as Hname Hcomp.
    rewrite Hname, Hcomp, String.eqb_refl, N.eqb_refl in Hq. discriminate.
Qed.

(** ** Updating a project *)

Lemma put_doc_at (f : Project -> Project) (i : ObjectId) (project : Project)
    (docs : list Project) :
  (forall q, p_id (f q) = p_id q) ->
  NoDup (map p_id docs) ->
  select (by_id i) docs = Some project ->
  put_doc (f project) docs = map (fun q => if by_id i q then f q else q) docs.
Proof.
  intros Hkeep Hnd Hsel. unfold put_doc. apply map_ext_in. intros q Hq.
  pose proof (select_by_id _ _ _ Hsel) as Hid.
  apply select_sound in Hsel. destruct Hsel as (Hin & _ & _).
  cbn in Hid |- *. rewrite Hkeep, Hid.
  destruct (by_id i q) eqn:Hq'; [|reflexivity].
  unfold by_id in Hq'. apply N.eqb_eq in Hq'. cbn in Hq'.
  assert (q = project) as ->; [|reflexivity].
  apply (NoDup_map_inj p_id docs); auto. congruence.
Qed.

Lemma cast_field_casts (key : option string) (id : option ObjectId) (w : World) :
  casts key id -> cast_field key w = (Ok id, w).
Proof.
  unfold casts, cast_field, with_key, ret.
  destruct key as [s|], id as [i|]; try contradiction; [|reflexivity].
  now intros ->.
Qed.

Ltac unfold_queries :=
  unfold ProjectHandlers.update, ProjectHandlers.getPositions,
    ProjectHandlers.getManagers, ProjectQuery.findOne,
    ProjectQuery.findByIdAndUpdate, ManagerQuery.find, PositionQuery.find.

Ltac unfold_queries_in H :=
  unfold ProjectHandlers.update, ProjectHandlers.getPositions,
    ProjectHandlers.getManagers, ProjectQuery.findOne,
    ProjectQuery.findByIdAndUpdate, ManagerQuery.find, PositionQuery.find in H.

(** The update by key finds the project the handler has just found: the
    answer always carries a document. *)
Lemma update_answers_a_document (req : UpdateReq) (w : World) :
  fst (ProjectHandlers.update req w) <> Ok None.
Proof.
  unfold_queries. unfold_handlers. unfold cast_field, with_key, ret, throw. cbn.
  repeat match goal with
         | |- context [cast_oid ?s] =>
             destruct (cast_oid s) eqn:?; cbn; try discriminate
         | |- context [select ?q ?l] =>
             destruct (select q l) eqn:?; cbn; try discriminate
         | |- context [ub_name ?b] =>
             destruct (ub_name b) eqn:?; cbn; try discriminate
         | |- context [ub_company_id ?b] =>
             destruct (ub_company_id b) eqn:?; cbn; try discriminate
         end.
Qed.

(** X4. Updating fails with NotFoundError when no live project has the key,
    and with AlreadyExists when the body carries a name that another live
    project of the project's present company bears; in both cases the store
    stays as it was. *)
Theorem update_rejections (req : UpdateReq) (w : World) (i : ObjectId) :
  cast_oid (ur_id req) = Some i ->
  (select (by_id i) (projects (store w)) = None ->
   fst (ProjectHandlers.update req w)
     = Throw (NotFoundError "project.errors.project_notfound")
   /\ store (snd (ProjectHandlers.update req w)) = store w)
  /\ (forall project name other,
        select (by_id i) (projects (store w)) = Some project ->
        ub_name (ur_body req) = Some name ->
        select (namesake (p_id project) name (p_company_id project))
               (projects (store w)) = Some other ->
        fst (ProjectHandlers.update req w)
          = Throw (AlreadyExists
                     "project.errors.project_already_attached_company")
        /\ store (snd (ProjectHandlers.update req w)) = store w).
Proof.
  intros Hi. split.
  - intros Hnone. unfold_queries. split; run; reflexivity.
  - intros project name other Hp Hname Hother. unfold_queries.
    split; run; rewrite Hname; run; reflexivity.
Qed.

(** A run of the update on an existing project whose new name, if any, is not
    borne by another live project of its present company. *)
Lemma update_run (req : UpdateReq) (w : World) (i : ObjectId)
    (project : Project) (company_id : option ObjectId) :
  cast_oid (ur_id req) = Some i ->
  select (by_id i) (projects (store w)) = Some project ->
  NoDup (map p_id (projects (store w))) ->
  casts (ub_company_id (ur_body req)) company_id ->
  (forall name, ub_name (ur_body req) = Some name ->
     select (namesake (p_id project) name (p_company_id project))
            (projects (store w)) = None) ->
  ProjectHandlers.update req w
  = (Ok (Some (mkResponse 200 "project.messages.project_successfully_updated"
                 (OfProject (patch (ur_body req) company_id project)))),
     mkWorld
       (set_projects
          (map (fun q => if by_id i q then patch (ur_body req) company_id q
                         else q))
          (store w))
       (trace w
        ++ (Lookup "projects"
            :: (if isSome (ub_name (ur_body req)) then [Lookup "projects"]
                else [])
            ++ [Lookup "projects"; Commit "projects" i; Emit UPDATE i]))%list).
Proof.
  intros Hi Hp Hnd Hcast Hfree.
  pose proof (put_doc_at (patch (ur_body req) company_id) i project _
                         (fun q => eq_refl) Hnd Hp) as Hput.
  pose proof (select_by_id _ _ _ Hp) as Hid. cbn in Hid.
  unfold casts in Hcast.
  destruct (ub_company_id (ur_body req)) as [s|] eqn:Hc,
           company_id as [c|]; try contradiction;
    (destruct (ub_name (ur_body req)) as [name|] eqn:Hname;
     [specialize (Hfree name eq_refl)|]);
    unfold_queries; unfold cast_field; unfold_handlers;
    rewrite ?Hname, ?Hc; run; rewrite ?Hid; unfold set_projects;
    rewrite ?Hput, <- ?app_assoc; reflexivity.
Qed.

(** With distinct keys the document found under a key is the only one the
    map by key touches. *)
Lemma map_at_found (f : Project -> Project) (i : ObjectId) (project : Project)
    (docs : list Project) :
  NoDup (map p_id docs) ->
  select (by_id i) docs = Some project ->
  map (fun q => if by_id i q then f q else q) docs
  = map (fun q => if by_id i q then f project else q) docs.
Proof.
  intros Hnd Hsel. apply map_ext_in. intros q Hq.
  pose proof (select_by_id _ _ _ Hsel) as Hid.
  apply select_sound in Hsel. destruct Hsel as (Hin & _ & _).
  cbn in Hid.
  destruct (by_id i q) eqn:Hq'; [|reflexivity].
  unfold by_id in Hq'. apply N.eqb_eq in Hq'. cbn in Hq'.
  assert (q = project) as ->; [|reflexivity].
  apply (NoDup_map_inj p_id docs); auto. congruence.
Qed.

(** X5. When the project exists and no other live project of its present
    company bears the name the body carries, the update succeeds, whatever
    the company named in the body holds.  The updated project has the name,
    the description, the company and [is_active] of the body where the body
    carries them and the stored ones where it does not, and the key, creator
    and deletion mark it had.  The answer is 200 with the updated project; in
    the store it stands in the place of the addressed project, every other
    project and every other collection is as before; one UPDATE event
    follows the commit. *)
Theorem update_frame (req : UpdateReq) (w : World) (i : ObjectId)
    (project : Project) (company_id : option ObjectId) :
  cast_oid (ur_id req) = Some i ->
  select (by_id i) (projects (store w)) = Some project ->
  NoDup (map p_id (projects (store w))) ->
  casts (ub_company_id (ur_body req)) company_id ->
  (forall name, ub_name (ur_body req) = Some name ->
     select (namesake (p_id project) name (p_company_id project))
            (projects (store w)) = None) ->
  let updated :=
    mkProject (p_id project)
              (match ub_name (ur_body req) with
               | Some name => name
               | None => p_name project
               end)
              (match ub_description (ur_body req) with
               | Some description => description
               | None => p_description project
               end)
              (match company_id with
               | Some company => company
               | None => p_company_id project
               end)
              (match ub_is_active (ur_body req) with
               | Some flag => flag
               | None => p_is_active project
               end)
              (p_created_by project) (p_deleted project) in
  let w' := snd (ProjectHandlers.update req w) in
  fst (ProjectHandlers.update req w)
  = Ok (Some (mkResponse 200 "project.messages.project_successfully_updated"
                (OfProject updated)))
  /\ projects (store w')
     = map (fun q => if by_id i q then updated else q) (projects (store w))
  /\ companies (store w') = companies (store w)
  /\ users (store w') = users (store w)
  /\ managers (store w') = managers (store w)
  /\ positions (store w') = positions (store w)
  /\ next_id (store w') = next_id (store w)
  /\ exists t, trace w' = (trace w ++ t)%list /\ commit_then_event t UPDATE i.
Proof.
  intros Hi Hp Hnd Hcast Hfree updated w'. subst w'.
  rewrite (update_run req w i project company_id) by assumption.
  cbn [fst snd store trace].
  split; [reflexivity|]. split.
  { unfold set_projects. cbn [projects].
    exact (map_at_found (patch (ur_body req) company_id) i project _ Hnd Hp). }
  repeat (split; [reflexivity|]).
  eexists. split; [reflexivity|].
  destruct (ub_name (ur_body req)); cbn [isSome].
  - exists [Lookup "projects"; Lookup "projects"; Lookup "projects"],
      "projects", i. split; reflexivity.
  - exists [Lookup "projects"; Lookup "projects"], "projects", i.
    split; reflexivity.
Qed.

Lemma own_name_is_free (s : Store) (i : ObjectId) (project : Project) :
  unique_names s ->
  select (by_id i) (projects s) = Some project ->
  select (namesake (p_id project) (p_name project) (p_company_id project))
         (projects s) = None.
Proof.
  intros Hnames Hp. apply select_sound in Hp. destruct Hp as (Hin & Hlive & _).
  apply select_none. intros d Hd Hsame.
  destruct (deleted d) eqn:Hdel; [reflexivity|]. exfalso.
  unfold namesake in Hsame.
  apply andb_prop in Hsame. destruct Hsame as [Hsame Hcomp].
  apply andb_prop in Hsame. destruct Hsame as [Hother Hname].
  apply String.eqb_eq in Hname. apply N.eqb_eq in Hcomp.
  assert (d = project) as ->.
  { apply (NoDup_map_inj project_name (filter live (projects s))); auto.
    - apply filter_In. split; auto. unfold live. now rewrite Hdel.
    - apply filter_In. split; auto. unfold live. now rewrite Hlive.
    - unfold project_name. congruence. }
  rewrite N.eqb_refl in Hother. discriminate.
Qed.

(** X6. Where the names of the live projects of each company are distinct,
    an update that carries the project's own present name is not taken for a
    clash: it succeeds. *)
Theorem update_own_name_accepted (req : UpdateReq) (w : World) (i : ObjectId)
    (project : Project) (company_id : option ObjectId) :
  cast_oid (ur_id req) = Some i ->
  select (by_id i) (projects (store w)) = Some project ->
  NoDup (map p_id (projects (store w))) ->
  unique_names (store w) ->
  casts (ub_company_id (ur_body req)) company_id ->
  ub_name (ur_body req) = Some (p_name project) ->
  fst (ProjectHandlers.update req w)
  = Ok (Some (mkResponse 200 "project.messages.project_successfully_updated"
                (OfProject (patch (ur_body req) company_id project))))
  /\ p_name (patch (ur_body req) company_id project) = p_name project.
Proof.
  intros Hi Hp Hnd Hnames Hcast Hname. split.
  - rewrite (update_run req w i project company_id Hi Hp Hnd Hcast);
      [reflexivity|].
    intros name Hname'. rewrite Hname in Hname'. injection Hname' as <-.
    now apply (own_name_is_free _ i).
  - cbn. now rewrite Hname.
Qed.

Lemma patch_nothing (p : Project) : patch empty_body None p = p.
Proof. now destruct p. Qed.

(** X7. An update with an empty body leaves the whole store as it was and
    answers with the stored project, yet emits an UPDATE event. *)
Theorem update_empty_body (req : UpdateReq) (w : World) (i : ObjectId)
    (project : Project) :
  cast_oid (ur_id req) = Some i ->
  select (by_id i) (projects (store w)) = Some project ->
  NoDup (map p_id (projects (store w))) ->
  ur_body req = empty_body ->
  fst (ProjectHandlers.update req w)
  = Ok (Some (mkResponse 200 "project.messages.project_successfully_updated"
                (OfProject project)))
  /\ store (snd (ProjectHandlers.update req w)) = store w
  /\ In (Emit UPDATE i) (trace (snd (ProjectHandlers.update req w))).
Proof.
  intros Hi Hp Hnd Hbody.
  rewrite (update_run req w i project None Hi Hp Hnd);
    [| now rewrite Hbody | rewrite Hbody; discriminate].
  rewrite Hbody. cbn [fst snd store trace]. rewrite patch_nothing.
  split; [reflexivity|]. split.
  - unfold set_projects.
    rewrite (map_ext _ (fun q => q)), map_id; [now destruct (store w)|].
    intros q. rewrite patch_nothing. now destruct (by_id i q).
  - apply in_or_app. right. cbn. auto.
Qed.

(** ** Deleting a project *)




(** ** Assigning, unassigning and listing managers *)

(** X9. Assigning and unassigning look the project up first and the user
    second: without a live project both fail with NotFoundError
    project_notfound, whoever the user is; with the project but without a
    live user both fail with NotFoundError user_notfound.  The store stays as
    it was. *)
Theorem assignment_parties_must_exist (default_type : string) (req : Req)
    (w : World) (pid : ObjectId) :
  cast_oid (params_id req) = Some pid ->
  (select (by_id pid) (projects (store w)) = None ->
   ProjectController.manager default_type req w
   = (Throw (NotFoundError "project.errors.project_notfound"),
      mkWorld (store w) (trace w ++ [Lookup "projects"]))
   /\ ProjectController.deleteManager req w
      = (Throw (NotFoundError "project.errors.project_notfound"),
         mkWorld (store w) (trace w ++ [Lookup "projects"])))
  /\ (forall project uid,
        select (by_id pid) (projects (store w)) = Some project ->
        cast_oid (body_manager_id req) = Some uid ->
        select (by_id uid) (users (store w)) = None ->
        ProjectController.manager default_type req w
        = (Throw (NotFoundError "user.errors.user_notfound"),
           mkWorld (store w) (trace w ++ [Lookup "projects"; Lookup "users"]))
        /\ ProjectController.deleteManager req w
           = (Throw (NotFoundError "user.errors.user_notfound"),
              mkWorld (store w)
                      (trace w ++ [Lookup "projects"; Lookup "users"]))).
Proof.
  intros Hp. split.
  - intros Hnone. split; run; reflexivity.
  - intros project uid Hproject Hu Hnone.
    split; run; rewrite <- app_assoc; reflexivity.
Qed.

(** The assignment PATCH /projects/{id}/manager stores. *)
Lemma manager_run (default_type : string) (req : Req) (w : World)
    (pid uid : ObjectId) (project : Project) (user : User) :
  cast_oid (params_id req) = Some pid ->
  select (by_id pid) (projects (store w)) = Some project ->
  cast_oid (body_manager_id req) = Some uid ->
  select (by_id uid) (users (store w)) = Some user ->
  select (same_key "projects" pid uid) (managers (store w)) = None ->
  ProjectController.manager default_type req w
  = (Ok (mkResponse 201 "project.messages.project_manager_successfully_updated"
           (OfProject project)),
     mkWorld
       (mkStore (companies (store w)) (projects (store w)) (users (store w))
                (managers (store w)
                 ++ [mkManager (next_id (store w)) "projects" pid uid
                               default_type (user_id req) false])%list
                (positions (store w)) (N.succ (next_id (store w))))
       (trace w ++ [Lookup "projects"; Lookup "users"; Lookup "managers";
                    Commit "managers" (next_id (store w));
                    Emit SET_MANAGER pid])).
Proof.
  intros Hp Hproject Hu Huser Hm.
  pose proof (select_by_id _ _ _ Hproject) as Hpid.
  pose proof (select_by_id _ _ _ Huser) as Huid.
  cbn in Hpid, Huid. run. rewrite Hpid, Huid. run.
  rewrite <- !app_assoc. reflexivity.
Qed.

(** The removal DELETE /projects/{id}/manager commits. *)
Lemma deleteManager_run (req : Req) (w : World) (pid uid : ObjectId)
    (project : Project) (user : User) (m : Manager) :
  cast_oid (params_id req) = Some pid ->
  select (by_id pid) (projects (store w)) = Some project ->
  cast_oid (body_manager_id req) = Some uid ->
  select (by_id uid) (users (store w)) = Some user ->
  select (same_key "projects" pid uid) (managers (store w)) = Some m ->
  String.eqb (m_type m) "owner" = false ->
  ProjectController.deleteManager req w
  = (Ok (mkResponse 200 "project.messages.project_manager_successfully_deleted"
           (OfProject project)),
     mkWorld (set_managers (soft_delete (m_id m)) (store w))
             (trace w ++ [Lookup "projects"; Lookup "users"; Lookup "managers";
                          Emit UNSET_MANAGER pid;
                          Commit "managers" (m_id m)])).
Proof.
  intros Hp Hproject Hu Huser Hm Hty.
  pose proof (select_by_id _ _ _ Hproject) as Hpid.
  pose proof (select_by_id _ _ _ Huser) as Huid.
  cbn in Hpid, Huid. run. rewrite Hpid, Huid. run.
  rewrite <- !app_assoc. reflexivity.
Qed.

Lemma owners_snoc (entity : string) (eid : ObjectId) (docs : list Manager)
    (m : Manager) :
  is_owner_of entity eid m = false ->
  filter (is_owner_of entity eid) (docs ++ [m]) = filter (is_owner_of entity eid) docs.
Proof.
  intros Hm. rewrite filter_app. cbn. rewrite Hm. apply app_nil_r.
Qed.

(** X10. Assigning a user without assignment to an existing project answers
    201 and appends one assignment to the store: entity "projects", the
    project, the user, the schema's default type, the caller as creator and a
    fresh key.  Nothing else changes but the key generator, and unless the
    default type is owner no entity gains an owner. *)
Theorem manager_success_frame (default_type : string) (req : Req) (w : World)
    (pid uid : ObjectId) (project : Project) (user : User) :
  cast_oid (params_id req) = Some pid ->
  select (by_id pid) (projects (store w)) = Some project ->
  cast_oid (body_manager_id req) = Some uid ->
  select (by_id uid) (users (store w)) = Some user ->
  select (same_key "projects" pid uid) (managers (store w)) = None ->
  fst (ProjectController.manager default_type req w)
  = Ok (mkResponse 201 "project.messages.project_manager_successfully_updated"
          (OfProject project))
  /\ store (snd (ProjectController.manager default_type req w))
     = mkStore (companies (store w)) (projects (store w)) (users (store w))
               (managers (store w)
                ++ [mkManager (next_id (store w)) "projects" pid uid
                              default_type (user_id req) false])%list
               (positions (store w)) (N.succ (next_id (store w)))
  /\ (String.eqb default_type "owner" = false ->
      forall entity eid,
        owner_count entity eid
                    (store (snd (ProjectController.manager default_type req w)))
        = owner_count entity eid (store w)).
Proof.
  intros Hp Hproject Hu Huser Hm.
  rewrite (manager_run default_type req w pid uid project user) by assumption.
  cbn. repeat split. intros Hty entity eid. unfold owner_count. cbn.
  rewrite owners_snoc; [reflexivity|].
  unfold is_owner_of. cbn. rewrite Hty. apply andb_false_r.
Qed.

Section SelectAll.
Context {D : Type} `{Document D}.

Lemma select_all_In (q : D -> bool) (docs : list D) (d : D) :
  In d (select_all q docs) <-> In d docs /\ deleted d = false /\ q d = true.
Proof.
  unfold select_all. rewrite filter_In, andb_true_iff, negb_true_iff. tauto.
Qed.

Lemma select_all_snoc (q : D -> bool) (docs : list D) (d : D) :
  select_all q (docs ++ [d])
  = (select_all q docs ++ if negb (deleted d) && q d then [d] else [])%list.
Proof.
  unfold select_all. rewrite filter_app. cbn.
  now destruct (negb (deleted d) && q d).
Qed.

End SelectAll.

Lemma select_all_soft_delete (q : Manager -> bool) (i : ObjectId)
    (docs : list Manager) :
  select_all q (soft_delete i docs)
  = filter (fun x => negb (by_id i x)) (select_all q docs).
Proof.
  unfold select_all. induction docs as [|a docs IH]; [reflexivity|].
  change (soft_delete i (a :: docs))
    with ((if by_id i a then mark_deleted a else a) :: soft_delete i docs).
  cbn [filter]. rewrite IH. destruct (by_id i a) eqn:E.
  - change (deleted (mark_deleted a)) with true. cbn [negb andb].
    destruct (negb (deleted a) && q a); [|reflexivity].
    cbn [filter]. now rewrite E.
  - destruct (negb (deleted a) && q a); [|reflexivity].
    cbn [filter]. now rewrite E.
Qed.

(** X11. Listing the managers of a project fails with NotFoundError when no
    live project has the key; otherwise it answers 200 with exactly the
    assignments of the store that are not deleted and belong to the project.
    The store is never changed. *)
Theorem getManagers_lists_live_assignments (req : Req) (w : World)
    (pid : ObjectId) :
  cast_oid (params_id req) = Some pid ->
  (select (by_id pid) (projects (store w)) = None ->
   fst (ProjectHandlers.getManagers req w)
   = Throw (NotFoundError "project.errors.project_not_found"))
  /\ (forall project,
        select (by_id pid) (projects (store w)) = Some project ->
        exists docs,
          fst (ProjectHandlers.getManagers req w)
          = Ok (mkListing 200 "project.messages.project_managers_found" docs)
          /\ forall m, In m docs
                       <-> In m (managers (store w)) /\ m_deleted m = false
                           /\ m_entity m = "projects" /\ m_entity_id m = pid)
  /\ store (snd (ProjectHandlers.getManagers req w)) = store w.
Proof.
  intros Hp. split; [|split].
  - intros Hnone. unfold_queries. run. reflexivity.
  - intros project Hproject.
    pose proof (select_by_id _ _ _ Hproject) as Hpid. cbn in Hpid.
    eexists. split.
    + unfold_queries. run. reflexivity.
    + intros m. rewrite select_all_In, Hpid. unfold of_entity.
      rewrite andb_true_iff, String.eqb_eq, N.eqb_eq. cbn. tauto.
  - unfold_queries. unfold_handlers. cbn. rewrite Hp. cbn.
    destruct (select (by_id pid) (projects (store w))); reflexivity.
Qed.

(** X12. The listing follows the assignments: after a user was assigned the
    managers of the project are the former ones followed by the new
    assignment; after an assignment was removed they are the former ones
    without the removed document. *)
Theorem managers_listing_follows_assignments (default_type : string)
    (req : Req) (w : World) (pid uid : ObjectId) (project : Project)
    (user : User) :
  cast_oid (params_id req) = Some pid ->
  select (by_id pid) (projects (store w)) = Some project ->
  cast_oid (body_manager_id req) = Some uid ->
  select (by_id uid) (users (store w)) = Some user ->
  (select (same_key "projects" pid uid) (managers (store w)) = None ->
   fst (ProjectHandlers.getManagers
          req (snd (ProjectController.manager default_type req w)))
   = Ok (mkListing 200 "project.messages.project_managers_found"
           (select_all (of_entity "projects" pid) (managers (store w))
            ++ [mkManager (next_id (store w)) "projects" pid uid default_type
                          (user_id req) false])%list))
  /\ (forall m,
        select (same_key "projects" pid uid) (managers (store w)) = Some m ->
        String.eqb (m_type m) "owner" = false ->
        fst (ProjectHandlers.getManagers
               req (snd (ProjectController.deleteManager req w)))
        = Ok (mkListing 200 "project.messages.project_managers_found"
                (filter (fun x => negb (by_id (m_id m) x))
                        (select_all (of_entity "projects" pid)
                                    (managers (store w)))))).
Proof.
  intros Hp Hproject Hu Huser.
  pose proof (select_by_id _ _ _ Hproject) as Hpid. cbn in Hpid.
  split.
  - intros Hm.
    rewrite (manager_run default_type req w pid uid project user) by assumption.
    unfold_queries. run. rewrite Hpid, select_all_snoc. cbn.
    unfold of_entity. cbn. rewrite N.eqb_refl. reflexivity.
  - intros m Hm Hty.
    rewrite (deleteManager_run req w pid uid project user m) by assumption.
    unfold_queries. run. rewrite Hpid, select_all_soft_delete. reflexivity.
Qed.

(** X13. Listing the positions of a project fails with NotFoundError when no
    live project has the key; otherwise it answers 200 with exactly the
    positions of the store that are not deleted and belong to the project.
    The store is never changed. *)
Theorem getPositions_lists_live_positions (req : Req) (w : World)
    (pid : ObjectId) :
  cast_oid (params_id req) = Some pid ->
  (select (by_id pid) (projects (store w)) = None ->
   fst (ProjectHandlers.getPositions req w)
   = Throw (NotFoundError "project.errors.project_not_found"))
  /\ (forall project,
        select (by_id pid) (projects (store w)) = Some project ->
        exists docs,
          fst (ProjectHandlers.getPositions req w)
          = Ok (mkListing 200 "project.messages.project_positions_found" docs)
          /\ forall p, In p docs
                       <-> In p (positions (store w)) /\ pos_deleted p = false
                           /\ pos_project_id p = pid)
  /\ store (snd (ProjectHandlers.getPositions req w)) = store w.
Proof.
  intros Hp. split; [|split].
  - intros Hnone. unfold_queries. run. reflexivity.
  - intros project Hproject.
    pose proof (select_by_id _ _ _ Hproject) as Hpid. cbn in Hpid.
    eexists. split.
    + unfold_queries. run. reflexivity.
    + intros p. rewrite select_all_In, Hpid. unfold of_project.
      rewrite N.eqb_eq. cbn. tauto.
  - unfold_queries. unfold_handlers. cbn. rewrite Hp. cbn.
    destruct (select (by_id pid) (projects (store w))); reflexivity.
Qed.

(** ** Failures, events and invariants across the handlers *)

(** Case analysis on the queries and tests of an unfolded run, those of the
    update included. *)
Ltac crack_all H :=
  repeat match type of H with
         | context [cast_oid ?s] =>
             destruct (cast_oid s) eqn:?; cbn in H; try discriminate H
         | context [select ?q ?l] =>
             destruct (select q l) eqn:?; cbn in H; try discriminate H
         | context [ub_name ?b] =>
             destruct (ub_name b) eqn:?; cbn in H; try discriminate H
         | context [ub_company_id ?b] =>
             destruct (ub_company_id b) eqn:?; cbn in H; try discriminate H
         | context [String.eqb ?a ?b] =>
             destruct (String.eqb a b) eqn:?; cbn in H; try discriminate H
         | context [p_is_active ?p] =>
             destruct (p_is_active p) eqn:?; cbn in H; try discriminate H
         | context [c_is_active ?c] =>
             destruct (c_is_active c) eqn:?; cbn in H; try discriminate H
         end.

Ltac open_run H :=
  unfold_queries_in H; unfold cast_field in H; unfold_handlers_in H;
  cbn in H; crack_all H.



Ltac loud :=
  let H := fresh "Hrun" in
  intros ? ? ? H; open_run H;
  try match goal with
      | Hc : None = Some _ |- _ => discriminate Hc
      | Hc : Some _ = None |- _ => discriminate Hc
      end;
  injection H as _ H; subst; cbn;
  eexists _, _; (split; [rewrite <- ?app_assoc; reflexivity|]);
  first [ eexists [_], _, _; split; reflexivity
        | eexists [_; _], _, _; split; reflexivity
        | eexists [_; _; _], _, _; split; reflexivity ].

(** X15. Creating, updating, deleting, assigning, activating and
    deactivating announce themselves only once the write is done: on every
    successful run the effects added are lookups, then the commit, then the
    event of the handler's kind as the last effect. *)
Theorem events_follow_commits (default_type : string)
    (default_is_active : bool) (req : Req) (ureq : UpdateReq) :
  announces (ProjectController.create default_is_active req) CREATE
  /\ announces (ProjectHandlers.update ureq) UPDATE
  /\ announces (ProjectController.delete req) DELETE
  /\ announces (ProjectController.manager default_type req) SET_MANAGER
  /\ announces (ProjectController.active req) ACTIVE
  /\ announces (ProjectController.deActive req) DEACTIVE.
Proof.
  repeat match goal with |- _ /\ _ => split end; unfold announces; loud.
Qed.

Lemma put_doc_ids (d : Project) (docs : list Project) :
  map p_id (put_doc d docs) = map p_id docs.
Proof.
  unfold put_doc. rewrite map_map. apply map_ext. intros x.
  destruct (by_id (_id d) x) eqn:E; [|reflexivity].
  unfold by_id in E. apply N.eqb_eq in E. cbn in E. congruence.
Qed.

Lemma soft_delete_project_ids (i : ObjectId) (docs : list Project) :
  map p_id (soft_delete i docs) = map p_id docs.
Proof.
  unfold soft_delete. rewrite map_map. apply map_ext.
  intros a. now destruct (by_id i a).
Qed.

Lemma fresh_by_ids {D} (key : D -> ObjectId) (n : ObjectId) (l l' : list D) :
  map key l' = map key l ->
  Forall (fun d => (key d < n)%N) l -> Forall (fun d => (key d < n)%N) l'.
Proof.
  intros Hids Hl. apply Forall_forall. intros x Hx.
  apply (in_map key) in Hx. rewrite Hids in Hx.
  apply in_map_iff in Hx. destruct Hx as [y [Hy Hin]].
  rewrite Forall_forall in Hl. rewrite <- Hy. now apply Hl.
Qed.

Lemma wf_put_project (s : Store) (d : Project) :
  wf_store s -> wf_store (set_projects (put_doc d) s).
Proof.
  intros [Hpi Hmi Hpf Hmf Hk]. constructor; cbn; auto.
  - now rewrite put_doc_ids.
  - apply (fresh_by_ids p_id _ (projects s)); auto. apply put_doc_ids.
Qed.

Lemma wf_soft_delete_project (s : Store) (i : ObjectId) :
  wf_store s -> wf_store (set_projects (soft_delete i) s).
Proof.
  intros [Hpi Hmi Hpf Hmf Hk]. constructor; cbn; auto.
  - now rewrite soft_delete_project_ids.
  - apply (fresh_by_ids p_id _ (projects s)); auto.
    apply soft_delete_project_ids.
Qed.

Lemma wf_soft_delete_manager (s : Store) (i : ObjectId) :
  wf_store s -> wf_store (set_managers (soft_delete i) s).
Proof.
  intros [Hpi Hmi Hpf Hmf Hk]. constructor; cbn; auto.
  - now rewrite soft_delete_ids.
  - apply (fresh_by_ids m_id _ (managers s)); auto. apply soft_delete_ids.
  - now apply soft_delete_keys.
Qed.

Lemma wf_add_project (s : Store) (mk : ObjectId -> Project) :
  (forall i, p_id (mk i) = i) ->
  wf_store s ->
  wf_store (mkStore (companies s) (projects s ++ [mk (next_id s)])%list
                    (users s) (managers s) (positions s) (N.succ (next_id s))).
Proof.
  intros Hmk [Hpi Hmi Hpf Hmf Hk]. constructor; cbn.
  - rewrite map_app. cbn. rewrite Hmk.
    apply NoDup_app; [exact Hpi | repeat constructor; auto |].
    intros i Hi [<-|[]]. apply in_map_iff in Hi. destruct Hi as [x [Hx Hin]].
    rewrite Forall_forall in Hpf. specialize (Hpf x Hin). cbn in Hpf. lia.
  - exact Hmi.
  - apply Forall_app. split.
    + eapply Forall_impl; [|exact Hpf]. cbn. intros; lia.
    + repeat constructor. rewrite Hmk. lia.
  - eapply Forall_impl; [|exact Hmf]. cbn. intros; lia.
  - exact Hk.
Qed.

Lemma wf_add_manager (s : Store) (entity type : string)
    (eid uid creator : ObjectId) :
  select (same_key entity eid uid) (managers s) = None ->
  wf_store s ->
  wf_store (mkStore (companies s) (projects s) (users s)
                    (managers s
                     ++ [mkManager (next_id s) entity eid uid type creator
                                   false])%list
                    (positions s) (N.succ (next_id s))).
Proof.
  intros Hm [Hpi Hmi Hpf Hmf Hk]. constructor; cbn.
  - exact Hpi.
  - rewrite map_app. cbn. apply NoDup_app; [exact Hmi | repeat constructor; auto |].
    intros i Hi [<-|[]]. apply in_map_iff in Hi. destruct Hi as [x [Hx Hin]].
    rewrite Forall_forall in Hmf. specialize (Hmf x Hin). cbn in Hmf. lia.
  - eapply Forall_impl; [|exact Hpf]. cbn. intros; lia.
  - apply Forall_app. split.
    + eapply Forall_impl; [|exact Hmf]. cbn. intros; lia.
    + repeat constructor. cbn. lia.
  - rewrite filter_app, map_app. cbn.
    apply NoDup_app; [exact Hk | repeat constructor; auto |].
    intros k Hin [<-|[]]. apply in_map_iff in Hin. destruct Hin as [x [Hx Hin]].
    apply filter_In in Hin. destruct Hin as [Hin Hl].
    pose proof (select_none_live _ _ x Hm Hin Hl) as Hq.
    apply same_key_spec in Hx. cbn in Hx. congruence.
Qed.

Ltac steady :=
  let w := fresh "w" in
  let Hwf := fresh "Hwf" in
  let H := fresh "Hrun" in
  intros w Hwf;
  match goal with
  | |- wf_store (store (snd ?c)) => destruct c as [[?|?] ?] eqn:H
  end;
  cbn [snd]; open_run H;
  try match goal with
      | Hc : None = Some _ |- _ => discriminate Hc
      | Hc : Some _ = None |- _ => discriminate Hc
      end;
  injection H as _ H; subst; cbn [store];
  first [ exact Hwf
        | apply wf_put_project; exact Hwf
        | apply wf_soft_delete_project; exact Hwf
        | apply wf_soft_delete_manager; exact Hwf
        | unfold set_projects, bump; cbn;
          apply (wf_add_project _ (fun i => mkProject i _ _ _ _ _ _));
          [reflexivity | exact Hwf]
        | unfold set_managers, bump; cbn;
          apply wf_add_manager; [eassumption | exact Hwf] ].

(** X16. Every handler of the project controller keeps the store well
    formed, whatever the outcome of the request: document keys stay unique
    and below the key generator, and no two live assignments share entity,
    entity id and user. *)
Theorem handlers_keep_wf (default_type : string) (default_is_active : bool)
    (req : Req) (ureq : UpdateReq) :
  keeps wf_store (ProjectController.find req)
  /\ keeps wf_store (ProjectController.create default_is_active req)
  /\ keeps wf_store (ProjectHandlers.update ureq)
  /\ keeps wf_store (ProjectController.delete req)
  /\ keeps wf_store (ProjectController.manager default_type req)
  /\ keeps wf_store (ProjectController.deleteManager req)
  /\ keeps wf_store (ProjectController.active req)
  /\ keeps wf_store (ProjectController.deActive req)
  /\ keeps wf_store (ProjectHandlers.getManagers req)
  /\ keeps wf_store (ProjectHandlers.getPositions req).
Proof.
  repeat match goal with |- _ /\ _ => split end; unfold keeps; steady.
Qed.

(** ** Activating and deactivating in sequence *)

Lemma select_put_doc (i : ObjectId) (p p' : Project) (docs : list Project) :
  select (by_id i) docs = Some p ->
  p_id p' = i -> p_deleted p' = false ->
  select (by_id i) (put_doc p' docs) = Some p'.
Proof.
  unfold select, put_doc. intros Hsel Hid Hlive.
  assert (forall x : Project, by_id (_id p') x = by_id i x) as Hb
      by (intros x; unfold by_id; cbn; now rewrite Hid).
  assert (by_id i p' = true) as Hp'
      by (unfold by_id; cbn; rewrite Hid; apply N.eqb_refl).
  induction docs as [|x docs IH]; [discriminate|].
  cbn [map find] in Hsel |- *. rewrite Hb.
  destruct (by_id i x) eqn:E.
  - rewrite Hp'. cbn. now rewrite Hlive.
  - rewrite E. rewrite andb_false_r in Hsel |- *. auto.
Qed.

Lemma put_doc_put_doc (d d' : Project) (docs : list Project) :
  p_id d = p_id d' -> put_doc d (put_doc d' docs) = put_doc d docs.
Proof.
  intros Hid. unfold put_doc. rewrite map_map. apply map_ext. intros x.
  unfold by_id. cbn. rewrite Hid.
  destruct (p_id x =? p_id d')%N eqn:E; cbn.
  - now rewrite N.eqb_refl.
  - now rewrite E.
Qed.

Lemma put_doc_same (p : Project) (docs : list Project) :
  NoDup (map p_id docs) -> In p docs -> put_doc p docs = docs.
Proof.
  intros Hnd Hin. unfold put_doc. rewrite <- (map_id docs) at 2.
  apply map_ext_in. intros x Hx. destruct (by_id (_id p) x) eqn:E; [|reflexivity].
  unfold by_id in E. apply N.eqb_eq in E. cbn in E.
  apply (NoDup_map_inj p_id docs); auto.
Qed.

Lemma set_active_back (b : bool) (p : Project) :
  p_is_active p = b -> set_active b (set_active (negb b) p) = p.
Proof. intros <-. now destruct p. Qed.

(** X17. Activation toggles.  On an inactive project a successful activation
    makes a second activation fail with BadRequestError, and deactivating
    afterwards gives back exactly the store the requests started from; the
    same holds with the two handlers exchanged on an active project. *)
Theorem activation_toggles (req : Req) (w : World) (i : ObjectId)
    (project : Project) :
  cast_oid (params_id req) = Some i ->
  select (by_id i) (projects (store w)) = Some project ->
  NoDup (map p_id (projects (store w))) ->
  (p_is_active project = false ->
   fst (ProjectController.active req (snd (ProjectController.active req w)))
   = Throw (BadRequestError "project.errors.project_activated_alredy")
   /\ store (snd (ProjectController.deActive
                    req (snd (ProjectController.active req w))))
      = store w)
  /\ (p_is_active project = true ->
      fst (ProjectController.deActive
             req (snd (ProjectController.deActive req w)))
      = Throw (BadRequestError "project.errors.project_deactivated_alredy")
      /\ store (snd (ProjectController.active
                       req (snd (ProjectController.deActive req w))))
         = store w).
Proof.
  intros Hi Hp Hnd.
  pose proof (select_sound _ _ _ Hp) as (Hin & Hlive & _). cbn in Hlive.
  pose proof (select_by_id _ _ _ Hp) as Hid. cbn in Hid.
  split; intros Hact.
  - pose proof (select_put_doc i project (set_active true project) _
                               Hp Hid Hlive) as Hon.
    split.
    + run. reflexivity.
    + run. unfold set_projects.
      cbn [companies projects users managers positions next_id].
      rewrite put_doc_put_doc by reflexivity.
      pose proof (set_active_back false project Hact) as Hback.
      cbn [negb] in Hback. rewrite Hback.
      rewrite put_doc_same by assumption. now destruct (store w).
  - pose proof (select_put_doc i project (set_active false project) _
                               Hp Hid Hlive) as Hoff.
    split.
    + run. reflexivity.
    + run. unfold set_projects.
      cbn [companies projects users managers positions next_id].
      rewrite put_doc_put_doc by reflexivity.
      pose proof (set_active_back true project Hact) as Hback.
      cbn [negb] in Hback. rewrite Hback.
      rewrite put_doc_same by assumption. now destruct (store w).
Qed.

(** ** The router and credentials *)

Lemma unauthenticated_stages
    (subrouter : string -> option string -> list string -> Request
                 -> option (M Response))
    (more : list Stage) (req : Request) (id : option string)
    (rest : list string) (w : World) :
  credential req = None ->
  run_stages subrouter (verifyToken :: more) req id rest w
  = (Throw UnauthenticatedError, w).
Proof.
  intros Hcred. cbn [run_stages run_stage].
  unfold resolve, orThrow, bind, throw. now rewrite Hcred.
Qed.

(** X18. Every mount of the router but /auth asks for a credential first: a
    request without one to users, companies, projects, permissions, roles,
    resumes, constant, provinces, cities or positions ends with
    UnauthenticatedError before any sub-router runs and with the world
    untouched, while a request to /auth reaches the auth router as it is. *)
Theorem credential_required_outside_auth
    (subrouter : string -> option string -> list string -> Request
                 -> option (M Response))
    (req : Request) (w : World) (head : string) (rest : list string) :
  url req = head :: rest ->
  credential req = None ->
  (In head mount_names ->
   dispatch subrouter router req w = (Throw UnauthenticatedError, w))
  /\ (forall handler,
        head = "auth" ->
        subrouter "authRouter" None rest req = Some handler ->
        dispatch subrouter router req w
        = match handler w with
          | (Ok resp, w') => (Ok (Some resp), w')
          | (Throw e, w') => (Throw e, w')
          end).
Proof.
  intros Hurl Hcred. split.
  - intros Hin. unfold mount_names in Hin. cbn in Hin.
    repeat (destruct Hin as [<-|Hin]); try contradiction;
      unfold router; destruct rest; repeat hop Hurl;
      apply bind_throw; now apply unauthenticated_stages.
  - intros handler -> Hsub. unfold router. repeat hop Hurl.
    cbn [run_stages run_stage]. rewrite Hsub. unfold bind, ret.
    destruct (handler w) as [[resp|e] w']; reflexivity.
Qed.

(** ** Renaming keeps names distinct *)

Lemma patch_keeps_names (docs : list Project) (i : ObjectId) (project : Project)
    (b : UpdateBody) :
  NoDup (map p_id docs) ->
  NoDup (map project_name (filter live docs)) ->
  select (by_id i) docs = Some project ->
  (forall name, ub_name b = Some name ->
     select (namesake (p_id project) name (p_company_id project)) docs = None) ->
  NoDup (map project_name
             (filter live
                (map (fun q => if by_id i q then patch b None q else q) docs))).
Proof.
  intros Hids Hnames Hp Hfree.
  pose proof (select_by_id _ _ _ Hp) as Hid. cbn in Hid.
  pose proof (select_sound _ _ _ Hp) as (Hin & Hlive & _). cbn in Hlive.
  rewrite filter_map_swap.
  rewrite (filter_ext _ live)
    by (intros a; unfold live; cbn; now destruct (by_id i a)).
  rewrite map_map. apply NoDup_map_NoDup_ForallPairs.
  2:{ apply NoDup_filter. now apply NoDup_map_inv in Hids. }
  assert (forall y, In y (filter live docs) -> by_id i y = false ->
            project_name y <> project_name (patch b None project)) as Hother.
  { intros y Hy Hyi Heq. apply filter_In in Hy. destruct Hy as [Hyin Hyl].
    unfold project_name in Heq. cbn in Heq. injection Heq as Hname Hcomp.
    destruct (ub_name b) as [name|] eqn:Hb; cbn in Hname.
    - pose proof (select_none_live _ _ y (Hfree name eq_refl) Hyin Hyl) as Hq.
      unfold namesake in Hq. unfold by_id in Hyi. cbn in Hyi.
      rewrite Hid, Hyi, Hname, Hcomp, String.eqb_refl, N.eqb_refl in Hq.
      discriminate.
    - assert (y = project) as ->.
      { apply (NoDup_map_inj project_name (filter live docs)); auto.
        - apply filter_In. auto.
        - apply filter_In. split; auto. unfold live. cbn. now rewrite Hlive.
        - unfold project_name. congruence. }
      unfold by_id in Hyi. cbn in Hyi. rewrite Hid, N.eqb_refl in Hyi.
      discriminate. }
  assert (forall x, In x docs -> by_id i x = true -> x = project) as Hthe.
  { intros x Hx Hxi. unfold by_id in Hxi. apply N.eqb_eq in Hxi. cbn in Hxi.
    apply (NoDup_map_inj p_id docs); auto. congruence. }
  intros x y Hx Hy Heq.
  pose proof (proj1 (proj1 (filter_In _ _ _) Hx)) as Hxin.
  pose proof (proj1 (proj1 (filter_In _ _ _) Hy)) as Hyin.
  destruct (by_id i x) eqn:Ex, (by_id i y) eqn:Ey.
  - rewrite (Hthe x Hxin Ex), (Hthe y Hyin Ey). reflexivity.
  - rewrite (Hthe x Hxin Ex) in Heq. symmetry in Heq.
    now apply Hother in Heq.
  - rewrite (Hthe y Hyin Ey) in Heq. now apply Hother in Heq.
  - now apply (NoDup_map_inj project_name (filter live docs)).
Qed.

(** X19. Where document keys are unique and the names of the live projects
    of each company are distinct, an update that does not move the project to
    another company keeps them distinct, whatever else it changes. *)
Theorem rename_keeps_names_distinct (req : UpdateReq) (w w' : World)
    (answer : option Response) :
  NoDup (map p_id (projects (store w))) ->
  unique_names (store w) ->
  ub_company_id (ur_body req) = None ->
  ProjectHandlers.update req w = (Ok answer, w') ->
  unique_names (store w').
Proof.
  intros Hids Hnames Hstay Hrun.
  unfold_queries_in Hrun. unfold cast_field in Hrun. unfold_handlers_in Hrun.
  rewrite Hstay in Hrun. cbn in Hrun.
  destruct (cast_oid (ur_id req)) as [i|] eqn:Hi; cbn in Hrun; [|discriminate].
  destruct (select (by_id i) (projects (store w))) as [project|] eqn:Hp;
    cbn in Hrun; [|discriminate].
  pose proof (put_doc_at (patch (ur_body req) None) i project _
                         (fun q => eq_refl) Hids Hp) as Hput.
  destruct (ub_name (ur_body req)) as [name|] eqn:Hname; cbn in Hrun.
  - destruct (select (namesake (p_id project) name (p_company_id project))
                     (projects (store w))) eqn:Hfree;
      cbn in Hrun; [discriminate|].
    rewrite Hp in Hrun. cbn in Hrun.
    injection Hrun as _ Hw. subst w'. unfold unique_names. cbn. rewrite Hput.
    apply (patch_keeps_names _ i project); auto.
    intros n Hn. rewrite Hname in Hn. now injection Hn as <-.
  - rewrite Hp in Hrun. cbn in Hrun.
    injection Hrun as _ Hw. subst w'. unfold unique_names. cbn. rewrite Hput.
    apply (patch_keeps_names _ i project); auto.
    intros n Hn. rewrite Hname in Hn. discriminate.
Qed.

(** ** The further properties on the sample store *)

Lemma sample_unique_names : unique_names sample_store.
Proof.
  unfold unique_names. cbn.
  apply NoDup_cons; [cbn; intros [H|[]]; discriminate H|].
  apply NoDup_cons; [intros []|apply NoDup_nil].
Defined.

(** Mercury is created under Acme and read back under the fresh key. *)
Lemma create_then_find_witness :
  fst (ProjectController.find
         (project_request key_fresh)
         (snd (ProjectController.create
                 true (create_request "Mercury" key_company) sample_world)))
  = Ok (mkResponse 200 "project.messages.project_found"
          (OfProject (created_project true
                        (create_request "Mercury" key_company)
                        id_company 1000%N))).
Proof.
  exact (proj2 (proj2 (create_then_find
                         true (create_request "Mercury" key_company)
                         sample_world id_company acme key_fresh
                         sample_store_wf eq_refl eq_refl eq_refl eq_refl
                         eq_refl))
               (project_request key_fresh) eq_refl).
Defined.

Lemma create_twice_rejected_witness :
  fst (ProjectController.create
         true (create_request "Mercury" key_company)
         (snd (ProjectController.create
                 true (create_request "Mercury" key_company) sample_world)))
  = Throw (AlreadyExists "project.errors.project_already_attached_company").
Proof.
  exact (proj1 (create_twice_rejected
                  true (create_request "Mercury" key_company) sample_world
                  (snd (ProjectController.create
                          true (create_request "Mercury" key_company)
                          sample_world))
                  (mkResponse 201 "project.messages.project_successfully_created"
                     (OfProject (created_project
                                   true (create_request "Mercury" key_company)
                                   id_company 1000%N)))
                  eq_refl)).
Defined.

Lemma create_keeps_invariants_witness :
  wf_store (store (snd (ProjectController.create
                          true (create_request "Mercury" key_company)
                          sample_world)))
  /\ unique_names (store (snd (ProjectController.create
                                 true (create_request "Mercury" key_company)
                                 sample_world))).
Proof.
  exact (create_keeps_invariants
           true (create_request "Mercury" key_company) sample_world
           (snd (ProjectController.create
                   true (create_request "Mercury" key_company) sample_world))
           (mkResponse 201 "project.messages.project_successfully_created"
              (OfProject (created_project
                            true (create_request "Mercury" key_company)
                            id_company 1000%N)))
           sample_store_wf sample_unique_names eq_refl).
Defined.

(** No project has the unknown key; Apollo cannot take Gemini's name. *)
Lemma update_rejections_witness :
  fst (ProjectHandlers.update (rename_request key_unknown "Saturn") sample_world)
  = Throw (NotFoundError "project.errors.project_notfound")
  /\ fst (ProjectHandlers.update (rename_request key_project "Gemini")
                                 sample_world)
     = Throw (AlreadyExists "project.errors.project_already_attached_company").
Proof.
  split.
  - exact (proj1 (proj1 (update_rejections
                           (rename_request key_unknown "Saturn") sample_world
                           id_unknown eq_refl)
                        eq_refl)).
  - exact (proj1 (proj2 (update_rejections
                           (rename_request key_project "Gemini") sample_world
                           id_project eq_refl)
                        apollo "Gemini" gemini eq_refl eq_refl eq_refl)).
Defined.

(** Apollo gets a new name, description, company and state at once and keeps
    its key and creator, Gemini stays as it is; with a body that carries a
    description only, the other fields of Apollo stay. *)
Lemma update_frame_witness :
  fst (ProjectHandlers.update (overhaul_request key_project) sample_world)
  = Ok (Some (mkResponse 200 "project.messages.project_successfully_updated"
                (OfProject
                   (mkProject id_project "Saturn" "probe" id_idle false
                              id_alice false))))
  /\ projects (store (snd (ProjectHandlers.update (overhaul_request key_project)
                                                  sample_world)))
     = [mkProject id_project "Saturn" "probe" id_idle false id_alice false;
        gemini]
  /\ projects (store (snd (ProjectHandlers.update
                             (describe_request key_project "probe")
                             sample_world)))
     = [mkProject id_project "Apollo" "probe" id_company true id_alice false;
        gemini].
Proof.
  split; [|split].
  - exact (proj1 (update_frame (overhaul_request key_project) sample_world
                               id_project apollo (Some id_idle) eq_refl eq_refl
                               sample_project_ids eq_refl
                               (fun name Hname =>
                                  match Hname in (_ = o)
                                        return (match o with
                                                | Some n =>
                                                    select (namesake
                                                              id_project n
                                                              id_company)
                                                           (projects sample_store)
                                                    = None
                                                | None => True
                                                end)
                                  with eq_refl => eq_refl
                                  end))).
  - exact (proj1 (proj2 (update_frame
                           (overhaul_request key_project) sample_world
                           id_project apollo (Some id_idle) eq_refl eq_refl
                           sample_project_ids eq_refl
                           (fun name Hname =>
                              match Hname in (_ = o)
                                    return (match o with
                                            | Some n =>
                                                select (namesake id_project n
                                                                 id_company)
                                                       (projects sample_store)
                                                = None
                                            | None => True
                                            end)
                              with eq_refl => eq_refl
                              end)))).
  - exact (proj1 (proj2 (update_frame
                           (describe_request key_project "probe") sample_world
                           id_project apollo None eq_refl eq_refl
                           sample_project_ids I
                           (fun name Hname =>
                              match Hname in (_ = o)
                                    return (match o with
                                            | Some n =>
                                                select (namesake id_project n
                                                                 id_company)
                                                       (projects sample_store)
                                                = None
                                            | None => True
                                            end)
                              with eq_refl => I
                              end)))).
Defined.

(** Apollo is given its own name again. *)
Lemma update_own_name_accepted_witness :
  fst (ProjectHandlers.update (rename_request key_project "Apollo") sample_world)
  = Ok (Some (mkResponse 200 "project.messages.project_successfully_updated"
                (OfProject apollo))).
Proof.
  exact (proj1 (update_own_name_accepted
                  (rename_request key_project "Apollo") sample_world id_project
                  apollo None eq_refl eq_refl sample_project_ids
                  sample_unique_names I eq_refl)).
Defined.

Lemma update_empty_body_witness :
  store (snd (ProjectHandlers.update (touch_request key_project) sample_world))
  = sample_store
  /\ In (Emit UPDATE id_project)
        (trace (snd (ProjectHandlers.update (touch_request key_project)
                                            sample_world))).
Proof.
  exact (proj2 (update_empty_body (touch_request key_project) sample_world
                                  id_project apollo eq_refl eq_refl
                                  sample_project_ids eq_refl)).
Defined.


(** No project has the unknown key; no user has it either. *)
Lemma assignment_parties_must_exist_witness :
  fst (ProjectController.manager
         "manager" (mkReq key_unknown "" "" "" key_dave id_alice) sample_world)
  = Throw (NotFoundError "project.errors.project_notfound")
  /\ fst (ProjectController.deleteManager (manager_request key_unknown)
                                          sample_world)
     = Throw (NotFoundError "user.errors.user_notfound").
Proof.
  split.
  - rewrite (proj1 (proj1 (assignment_parties_must_exist
                             "manager"
                             (mkReq key_unknown "" "" "" key_dave id_alice)
                             sample_world id_unknown eq_refl)
                          eq_refl)).
    reflexivity.
  - rewrite (proj2 (proj2 (assignment_parties_must_exist
                             "manager" (manager_request key_unknown)
                             sample_world id_project eq_refl)
                          apollo id_unknown eq_refl eq_refl eq_refl)).
    reflexivity.
Defined.

(** Dave becomes a manager of Apollo. *)
Lemma manager_success_frame_witness :
  managers (store (snd (ProjectController.manager
                          "manager" (manager_request key_dave) sample_world)))
  = (managers sample_store
     ++ [mkManager 1000%N "projects" id_project id_dave "manager" id_alice
                   false])%list
  /\ owner_count "projects" id_project
       (store (snd (ProjectController.manager
                      "manager" (manager_request key_dave) sample_world)))
     = 2.
Proof.
  pose proof (manager_success_frame
                "manager" (manager_request key_dave) sample_world id_project
                id_dave apollo (mkUser id_dave false) eq_refl eq_refl eq_refl
                eq_refl eq_refl)
    as (_ & Hstore & Howners).
  split.
  - rewrite Hstore. reflexivity.
  - rewrite (Howners eq_refl). reflexivity.
Defined.

(** Apollo has three managers. *)
Lemma getManagers_lists_live_assignments_witness :
  exists docs,
    fst (ProjectHandlers.getManagers (project_request key_project) sample_world)
    = Ok (mkListing 200 "project.messages.project_managers_found" docs)
    /\ List.length docs = 3.
Proof.
  destruct (proj1 (proj2 (getManagers_lists_live_assignments
                            (project_request key_project) sample_world
                            id_project eq_refl))
                  apollo eq_refl)
    as (docs & Hdocs & _).
  exists docs. split; [exact Hdocs|].
  cbn in Hdocs. injection Hdocs as <-. reflexivity.
Defined.

(** After Dave was assigned Apollo lists four managers, the last of them
    Dave; after Carol was unassigned it lists two. *)
Lemma managers_listing_follows_assignments_witness :
  fst (ProjectHandlers.getManagers
         (manager_request key_dave)
         (snd (ProjectController.manager "manager" (manager_request key_dave)
                                         sample_world)))
  = Ok (mkListing 200 "project.messages.project_managers_found"
          [mkManager 1%N "projects" id_project id_alice "owner" id_alice false;
           mkManager 2%N "projects" id_project id_bob "owner" id_alice false;
           mkManager 3%N "projects" id_project id_carol "manager" id_alice false;
           mkManager 1000%N "projects" id_project id_dave "manager" id_alice
                     false])
  /\ fst (ProjectHandlers.getManagers
            (manager_request key_carol)
            (snd (ProjectController.deleteManager (manager_request key_carol)
                                                  sample_world)))
     = Ok (mkListing 200 "project.messages.project_managers_found"
             [mkManager 1%N "projects" id_project id_alice "owner" id_alice
                        false;
              mkManager 2%N "projects" id_project id_bob "owner" id_alice
                        false]).
Proof.
  split.
  - rewrite (proj1 (managers_listing_follows_assignments
                      "manager" (manager_request key_dave) sample_world
                      id_project id_dave apollo (mkUser id_dave false)
                      eq_refl eq_refl eq_refl eq_refl)
                   eq_refl).
    reflexivity.
  - rewrite (proj2 (managers_listing_follows_assignments
                      "manager" (manager_request key_carol) sample_world
                      id_project id_carol apollo (mkUser id_carol false)
                      eq_refl eq_refl eq_refl eq_refl)
                   (mkManager 3%N "projects" id_project id_carol "manager"
                              id_alice false)
                   eq_refl eq_refl).
    reflexivity.
Defined.

(** Of Apollo's two positions the one that is not deleted is listed. *)
Lemma getPositions_lists_live_positions_witness :
  exists docs,
    fst (ProjectHandlers.getPositions (project_request key_project)
                                      staffed_world)
    = Ok (mkListing 200 "project.messages.project_positions_found" docs)
    /\ docs = [analyst].
Proof.
  destruct (proj1 (proj2 (getPositions_lists_live_positions
                            (project_request key_project) staffed_world
                            id_project eq_refl))
                  apollo eq_refl)
    as (docs & Hdocs & _).
  exists docs. split; [exact Hdocs|].
  cbn in Hdocs. injection Hdocs as <-. reflexivity.
Defined.


(** Deleting Apollo commits, then emits DELETE. *)
Lemma events_follow_commits_witness :
  exists t project_id,
    trace (snd (ProjectController.delete (project_request key_project)
                                         sample_world))
    = ([] ++ t)%list
    /\ commit_then_event t DELETE project_id.
Proof.
  exact (proj1 (proj2 (proj2 (events_follow_commits
                                "manager" true (project_request key_project)
                                (touch_request key_project))))
               sample_world
               (mkResponse 200 "project.messages.project_successfully_deleted"
                           (OfProject (mark_deleted apollo)))
               (snd (ProjectController.delete (project_request key_project)
                                              sample_world))
               eq_refl).
Defined.

(** The sample store is still well formed after Dave was assigned. *)
Lemma handlers_keep_wf_witness :
  wf_store (store (snd (ProjectController.manager
                          "manager" (manager_request key_dave) sample_world))).
Proof.
  exact (proj1 (proj2 (proj2 (proj2 (proj2
           (handlers_keep_wf "manager" true (manager_request key_dave)
                             (touch_request key_project))))))
               sample_world sample_store_wf).
Defined.

(** Gemini is activated and deactivated again; Apollo the other way round. *)
Lemma activation_toggles_witness :
  store (snd (ProjectController.deActive
                (project_request key_gemini)
                (snd (ProjectController.active (project_request key_gemini)
                                               sample_world))))
  = sample_store
  /\ fst (ProjectController.deActive
            (project_request key_project)
            (snd (ProjectController.deActive (project_request key_project)
                                             sample_world)))
     = Throw (BadRequestError "project.errors.project_deactivated_alredy").
Proof.
  split.
  - exact (proj2 (proj1 (activation_toggles
                           (project_request key_gemini) sample_world id_gemini
                           gemini eq_refl eq_refl sample_project_ids)
                        eq_refl)).
  - exact (proj1 (proj2 (activation_toggles
                           (project_request key_project) sample_world
                           id_project apollo eq_refl eq_refl sample_project_ids)
                        eq_refl)).
Defined.

(** Without a credential Apollo cannot be asked for. *)
Lemma credential_required_outside_auth_witness :
  dispatch unrouted router anonymous_request sample_world
  = (Throw UnauthenticatedError, sample_world).
Proof.
  refine (proj1 (credential_required_outside_auth
                   unrouted anonymous_request sample_world "projects"
                   [key_project] eq_refl eq_refl) _).
  cbn. tauto.
Defined.

(** Renaming Apollo to Saturn keeps the names under Acme distinct. *)
Lemma rename_keeps_names_distinct_witness :
  unique_names
    (store (snd (ProjectHandlers.update (rename_request key_project "Saturn")
                                        sample_world))).
Proof.
  exact (rename_keeps_names_distinct
           (rename_request key_project "Saturn") sample_world
           (snd (ProjectHandlers.update (rename_request key_project "Saturn")
                                        sample_world))
           (Some (mkResponse 200 "project.messages.project_successfully_updated"
                    (OfProject
                       (mkProject id_project "Saturn" "launcher" id_company true
                                  id_alice false))))
           sample_project_ids sample_unique_names eq_refl eq_refl).
Defined.
